(** * TDK-Lambda Zup power supplies: the Python library, embedded and verified

    The development embeds two parts of the repository:

    - [Zup] : the class of [Zup.py] (one object per supply on a shared
      serial port, with the class-level dictionary [listening_addresses]);
    - [ABT_ZUp] : the multi-supply sequencer of [OldCode/ABT_ZUp.py]
      ([ZUps_ON], [ZUps_off] and their helpers).

    Conventions of the embedding.

    - Effects are explicit: a [world] holds the dictionary
      [listening_addresses], the lines each port will deliver to
      [readline], and the chronological [trace] of everything the code did
      on the outside ([time.sleep], [serial.write], [serial.readline],
      [serial.close]).  Code runs in a state-and-exception monad [M].
    - Durations are in milliseconds ([time.sleep(0.015)] is [Sleep 15]).
    - Python floats are modelled by exact rationals ([Q]).  Every literal
      of the source is taken at its decimal value, and [round] / the [f]
      presentation type round the exact value to the nearest decimal, ties
      to even, as CPython does on the exact binary value of a float.
    - Python values are typed: an address is a [Z], a voltage a [Q], a
      foldback flag a [string]; the [TypeError] guards of the source are
      therefore discharged by typing. *)

From Stdlib Require Import ZArith NArith QArith String Ascii List Lia Bool.
From stdpp Require Import gmap strings.

Local Open Scope string_scope.

(** ** Python built-ins used by the library *)

Module Py.

Definition is_lower (c : ascii) : bool :=
  let n := nat_of_ascii c in Nat.leb 97 n && Nat.leb n 122.

Definition is_upper (c : ascii) : bool :=
  let n := nat_of_ascii c in Nat.leb 65 n && Nat.leb n 90.

Definition to_upper (c : ascii) : ascii :=
  if is_lower c then ascii_of_nat (nat_of_ascii c - 32) else c.

Definition to_lower (c : ascii) : ascii :=
  if is_upper c then ascii_of_nat (nat_of_ascii c + 32) else c.

(** [str.upper] and [str.lower], on ASCII. *)
Fixpoint upper (s : string) : string :=
  match s with
  | EmptyString => EmptyString
  | String c s' => String (to_upper c) (upper s')
  end.

Fixpoint lower (s : string) : string :=
  match s with
  | EmptyString => EmptyString
  | String c s' => String (to_lower c) (lower s')
  end.

(** [str.title]: a cased character is upper-cased when it follows an
    uncased one and lower-cased otherwise. *)
Fixpoint title_from (prev_cased : bool) (s : string) : string :=
  match s with
  | EmptyString => EmptyString
  | String c s' =>
      String (if prev_cased then to_lower c else to_upper c)
             (title_from (is_lower c || is_upper c) s')
  end.

Definition title (s : string) : string := title_from false s.

(** [s.index(sub)]: [None] stands for the [ValueError] Python raises. *)
Definition index (s sub : string) : option nat := String.index 0 sub s.

(** [s[i:j]] with Python's treatment of negative and overlong bounds. *)
Definition clamp (len i : Z) : Z :=
  if (i <? 0)%Z then Z.max (i + len) 0 else Z.min i len.

Definition slice (s : string) (i j : Z) : string :=
  let len := Z.of_nat (String.length s) in
  let a := clamp len i in
  let b := clamp len j in
  substring (Z.to_nat a) (Z.to_nat (b - a)) s.

(** [s.replace(old, new)] for a non-empty [old]: every non-overlapping
    occurrence, left to right.  [skip] counts the characters of a match
    still to be dropped. *)
Fixpoint replace_from (old new : string) (skip : nat) (s : string) : string :=
  match s with
  | EmptyString => EmptyString
  | String c s' =>
      match skip with
      | S k => replace_from old new k s'
      | O =>
          if String.prefix old s
          then new ++ replace_from old new (String.length old - 1) s'
          else String c (replace_from old new 0 s')
      end
  end.

Definition replace (s old new : string) : string := replace_from old new 0 s.

(** Decimal digits. *)
Definition digit (n : N) : string :=
  String (ascii_of_N (48 + n mod 10)) EmptyString.

(** [str(n)] for a natural number: no leading zero. *)
Fixpoint dec_digits (fuel : nat) (n : N) : string :=
  match fuel with
  | O => digit n
  | S f => if (n <? 10)%N then digit n else dec_digits f (n / 10) ++ digit n
  end.

Definition str_N (n : N) : string := dec_digits (N.to_nat (N.log2 n)) n.

Definition str_Z (z : Z) : string :=
  if (z <? 0)%Z then "-" ++ str_N (Z.abs_N z) else str_N (Z.abs_N z).

(** Exactly [w] digits of [n], most significant first. *)
Fixpoint fixed_digits (w : nat) (n : N) : string :=
  match w with
  | O => EmptyString
  | S w' => fixed_digits w' (n / 10) ++ digit n
  end.

Fixpoint repeat_char (c : ascii) (n : nat) : string :=
  match n with
  | O => EmptyString
  | S k => String c (repeat_char c k)
  end.

(** Right alignment in a field of [width] characters (format alignment [>]). *)
Definition rjust (width : nat) (fillchar : ascii) (s : string) : string :=
  repeat_char fillchar (width - String.length s) ++ s.

(** Nearest integer, ties to even. *)
Definition round_half_even (q : Q) : Z :=
  let n := Qnum q in
  let d := Z.pos (Qden q) in
  let a := Z.abs n in
  let fl := (a / d)%Z in
  let r := (a mod d)%Z in
  let m := if (2 * r <? d)%Z then fl
           else if (d <? 2 * r)%Z then (fl + 1)%Z
           else if Z.even fl then fl else (fl + 1)%Z in
  if (n <? 0)%Z then (- m)%Z else m.

Definition pow10 (T : nat) : Z := (10 ^ Z.of_nat T)%Z.

(** The value of [q] in units of [10^-T], rounded. *)
Definition scaled (q : Q) (T : nat) : Z :=
  round_half_even (q * inject_Z (pow10 T)).

(** [round(q, T)]. *)
Definition round (q : Q) (T : nat) : Q :=
  Qmake (scaled q T) (Z.to_pos (pow10 T)).

(** Presentation type [f] with precision [T], before any padding: sign,
    integer part without leading zeros, and [T] decimals. *)
Definition fixed_f (q : Q) (T : nat) : string :=
  let m := Z.abs_N (scaled q T) in
  let p := Z.to_N (pow10 T) in
  (if (Qnum q <? 0)%Z then "-" else "")
    ++ str_N (m / p)
    ++ match T with O => "" | S _ => "." ++ fixed_digits T (m mod p) end.

(** A format specification [{:<fill>><width>.<precision>f}]. *)
Record format_spec := {
  fill : ascii;
  width : nat;
  precision : nat
}.

Definition format_f (spec : format_spec) (q : Q) : string :=
  rjust (width spec) (fill spec) (fixed_f q (precision spec)).

(** [{:0>2d}] and the like. *)
Definition format_d (fillchar : ascii) (w : nat) (z : Z) : string :=
  rjust w fillchar (str_Z z).

(** [float(s)] for the decimal syntax the supplies answer in: optional
    surrounding white space, optional sign, digits with at most one
    point.  Exponents, [inf], [nan] and underscores are outside the model.
    [None] stands for [ValueError]. *)
Definition digit_val (c : ascii) : option N :=
  let n := N_of_ascii c in
  if ((48 <=? n) && (n <=? 57))%N then Some (n - 48)%N else None.

Fixpoint parse_digits (acc : N) (s : string) : option N :=
  match s with
  | EmptyString => Some acc
  | String c s' =>
      match digit_val c with
      | Some d => parse_digits (10 * acc + d) s'
      | None => None
      end
  end.

Definition is_space (c : ascii) : bool :=
  let n := nat_of_ascii c in
  (Nat.leb 9 n && Nat.leb n 13) || Nat.eqb n 32.

Fixpoint lstrip (s : string) : string :=
  match s with
  | EmptyString => EmptyString
  | String c s' => if is_space c then lstrip s' else s
  end.

Fixpoint rstrip (s : string) : string :=
  match s with
  | EmptyString => EmptyString
  | String c s' =>
      match rstrip s' with
      | EmptyString => if is_space c then EmptyString else String c EmptyString
      | r => String c r
      end
  end.

Definition strip (s : string) : string := rstrip (lstrip s).

Definition parse_unsigned (s : string) : option Q :=
  match String.index 0 "." s with
  | None =>
      match s with
      | EmptyString => None
      | _ => match parse_digits 0 s with
             | Some n => Some (inject_Z (Z.of_N n))
             | None => None
             end
      end
  | Some k =>
      let ip := substring 0 k s in
      let fp := substring (S k) (String.length s - S k) s in
      match ip, fp with
      | EmptyString, EmptyString => None
      | _, _ =>
          match parse_digits 0 ip, parse_digits 0 fp with
          | Some i, Some f =>
              let p := pow10 (String.length fp) in
              Some (Qmake (Z.of_N i * p + Z.of_N f) (Z.to_pos p))
          | _, _ => None
          end
      end
  end.

Definition float (s : string) : option Q :=
  match strip s with
  | String "-" r => option_map Qopp (parse_unsigned r)
  | String "+" r => parse_unsigned r
  | r => parse_unsigned r
  end.

(** [a < b] on numbers. *)
Definition lt (a b : Q) : bool := negb (Qle_bool b a).

(** A chained comparison [lo <= x <= hi] on numbers. *)
Definition between (lo x hi : Q) : bool := Qle_bool lo x && Qle_bool x hi.

End Py.

(** ** The outside world: serial ports, the clock, exceptions *)

Definition CRLF : string :=
  String (ascii_of_nat 13) (String (ascii_of_nat 10) EmptyString).

(** Everything the library does that can be observed from outside, in
    chronological order. *)
Inductive event :=
| Sleep (ms : N)                         (* time.sleep *)
| Tx (port : string) (data : string)     (* serial.write *)
| Rx (port : string)                     (* serial.readline *)
| ClosePort (port : string).             (* serial.close *)

(** One entry of the failure report the sequencer accumulates.  The source
    concatenates message text; the embedding keeps what each message is
    about. *)
Inductive failure :=
| BadAddressCount
| BadAddress (Address : Z)
| BadFoldback (Address : Z)
| VoltageOutside (Address : Z)
| AmperageOutside (Address : Z)
| FailedToTurnOn (Address : Z) (status : string)
| FailedToTurnOff (Address : Z) (status : string)
| OutsideTolerance (Address : Z) (status : string)
| ExceedsAmperage (Address : Z) (status : string).

Inductive exn :=
| ValueError (msg : string)
| KeyError (key : string)
| ValueErrorReport (Failures : list failure)
| RuntimeErrorReport (Failures : list failure).

Record world := {
  listening_addresses : gmap string Z;    (* Zup.listening_addresses *)
  inbox : gmap string (list string);      (* lines readline will return *)
  trace : list event
}.

Inductive result (A : Type) :=
| Ok (a : A)
| Raise (e : exn).
Arguments Ok {A} a.
Arguments Raise {A} e.

Definition M (A : Type) : Type := world -> result A * world.

Definition ret {A} (a : A) : M A := fun w => (Ok a, w).

Definition bind {A B} (m : M A) (k : A -> M B) : M B :=
  fun w => match m w with
           | (Ok a, w') => k a w'
           | (Raise e, w') => (Raise e, w')
           end.

Definition raise {A} (e : exn) : M A := fun w => (Raise e, w).

Notation "x <- m ;; k" := (bind m (fun x => k))
  (at level 100, m at level 80, right associativity, only parsing).
Notation "m ;;; k" := (bind m (fun _ => k))
  (at level 100, right associativity, only parsing).

Definition emit (e : event) : M unit :=
  fun w => (Ok tt, {| listening_addresses := listening_addresses w;
                      inbox := inbox w;
                      trace := trace w ++ [e] |}).

Definition sleep (ms : N) : M unit := emit (Sleep ms).

Definition serial_write (port data : string) : M unit := emit (Tx port data).

Definition serial_close (port : string) : M unit := emit (ClosePort port).

(** [readline] returns the next pending line of the port, or the empty
    string when nothing arrives before the timeout. *)
Definition serial_readline (port : string) : M string :=
  fun w =>
    let w' := {| listening_addresses := listening_addresses w;
                 inbox := inbox w;
                 trace := trace w ++ [Rx port] |} in
    match inbox w !! port with
    | Some (line :: rest) =>
        (Ok line, {| listening_addresses := listening_addresses w;
                     inbox := <[port := rest]> (inbox w);
                     trace := trace w ++ [Rx port] |})
    | _ => (Ok EmptyString, w')
    end.

Definition get_listening : M (gmap string Z) :=
  fun w => (Ok (listening_addresses w), w).

Definition set_listening (port : string) (address : Z) : M unit :=
  fun w => (Ok tt, {| listening_addresses := <[port := address]> (listening_addresses w);
                      inbox := inbox w;
                      trace := trace w |}).

(** [for x in xs: body x]. *)
Fixpoint for_each {A} (xs : list A) (body : A -> M unit) : M unit :=
  match xs with
  | [] => ret tt
  | x :: rest => body x ;;; for_each rest body
  end.

(** A pySerial object, as far as the library reads it. *)
Record Serial := {
  port : string;
  baudrate : Z
}.

(** The strings written to the ports, in order. *)
Definition writes (t : list event) : list string :=
  flat_map (fun e => match e with Tx _ d => [d] | _ => [] end) t.

(** What a computation added to the trace. *)
Definition emitted (w w' : world) (evs : list event) : Prop :=
  trace w' = (trace w ++ evs)%list.

(** ** [Zup.py]: class [Zup] *)

Module Zup.

Definition ADDRESS_RANGE (address : Z) : bool :=
  ((1 <=? address) && (address <? 32))%Z.

Definition BAUD_RATES : list Z := [300; 600; 1200; 2400; 4800; 9600]%Z.

Definition fmt (w p : nat) : Py.format_spec :=
  {| Py.fill := "0"%char; Py.width := w; Py.precision := p |}.

#[global] Instance format_spec_inhabited : Inhabited Py.format_spec :=
  populate (fmt 0 0).

(** [FORMATS]: the key is [<leading digits>.<trailing digits>]. *)
Definition FORMATS : gmap string Py.format_spec :=
  list_to_map
    [ ("1.2", fmt 4 2); ("1.3", fmt 5 3); ("1.4", fmt 6 4);
      ("2.1", fmt 4 1); ("2.2", fmt 5 2); ("2.3", fmt 6 3);
      ("3.1", fmt 5 1); ("3.2", fmt 6 2) ].

(** One row of a limit table: [{'min': .., 'MAX': .., 'Format': ..}]. *)
Record limits := {
  min_ : Q;
  MAX : Q;
  Format : Py.format_spec
}.

Definition row (lo hi : Q) (key : string) : limits :=
  {| min_ := lo; MAX := hi; Format := FORMATS !!! key |}.

(* Zup Manual Table 5.5.3. *)
Definition VOLs : gmap string limits :=
  list_to_map
    [ ("ZUP6-XY",   row 0.0 6.300 "1.3");
      ("ZUP10-XY",  row 0.0 10.500 "2.3");
      ("ZUP20-XY",  row 0.0 21.000 "2.3");
      ("ZUP36-XY",  row 0.0 37.80 "2.2");
      ("ZUP60-XY",  row 0.0 63.00 "2.2");
      ("ZUP80-XY",  row 0.0 84.00 "2.2");
      ("ZUP120-XY", row 0.0 126.00 "3.2") ].

(* Zup Manual Table 5.5.4. *)
Definition CURs : gmap string limits :=
  list_to_map
    [ ("ZUP6-33",    row 0.0 34.65 "2.2");
      ("ZUP6-66",    row 0.0 69.30 "2.2");
      ("ZUP6-132",   row 0.0 138.60 "3.2");
      ("ZUP10-20",   row 0.0 21.000 "2.3");
      ("ZUP10-40",   row 0.0 42.00 "2.2");
      ("ZUP10-80",   row 0.0 84.00 "2.2");
      ("ZUP20-10",   row 0.0 10.500 "2.3");
      ("ZUP20-20",   row 0.0 21.000 "2.3");
      ("ZUP20-40",   row 0.0 42.00 "2.2");
      ("ZUP36-6",    row 0.0 6.300 "1.3");
      ("ZUP36-12",   row 0.0 12.600 "2.3");
      ("ZUP36-24",   row 0.0 25.200 "2.3");
      ("ZUP60-3.5",  row 0.0 3.675 "1.3");
      ("ZUP60-7",    row 0.0 7.350 "1.3");
      ("ZUP60-14",   row 0.0 14.700 "2.3");
      ("ZUP80-2.5",  row 0.0 2.6250 "1.4");
      ("ZUP80-5",    row 0.0 5.250 "1.3");
      ("ZUP120-1.8", row 0.0 1.8900 "1.4");
      ("ZUP120-3.6", row 0.0 3.780 "1.3") ].

(* Zup Manual Table 5.5.11. *)
Definition OVPs : gmap string limits :=
  list_to_map
    [ ("ZUP6-XY",   row 0.2 7.50 "1.2");
      ("ZUP10-XY",  row 0.5 13.0 "2.1");
      ("ZUP20-XY",  row 1.0 24.0 "2.1");
      ("ZUP36-XY",  row 0.8 40.0 "2.1");
      ("ZUP60-XY",  row 3.0 66.0 "2.1");
      ("ZUP80-XY",  row 4.0 88.0 "2.1");
      ("ZUP120-XY", row 6.0 132.0 "3.1") ].

(* Zup Manual Table 5.5.13. *)
Definition UVPs : gmap string limits :=
  list_to_map
    [ ("ZUP6-XY",   row 0.0 5.98 "1.2");
      ("ZUP10-XY",  row 0.0 9.97 "1.2");
      ("ZUP20-XY",  row 0.0 19.9 "2.1");
      ("ZUP36-XY",  row 0.0 35.9 "2.1");
      ("ZUP60-XY",  row 0.0 59.8 "2.1");
      ("ZUP80-XY",  row 0.0 79.8 "2.1");
      ("ZUP120-XY", row 0.0 119.8 "3.1") ].

(** A [Zup] object. *)
Record Zup := {
  serial_port : Serial;
  address : Z;
  CUR : limits;
  VOL : limits;
  OVP : limits;
  UVP : limits
}.

(** [_write_command]: address the supply first unless it is the one
    already listening on this port. *)
Definition _write_command (self : Zup) (command : string) : M unit :=
  la <- get_listening ;;
  (match la !! port (serial_port self) with
   | Some a =>
       if (a =? address self)%Z then ret tt
       else
         set_listening (port (serial_port self)) (address self) ;;;
         sleep 15 ;;;
         serial_write (port (serial_port self))
                      (":ADR" ++ Py.format_d "0" 2 (address self) ++ ";") ;;;
         sleep 35
   | None =>
       set_listening (port (serial_port self)) (address self) ;;;
       sleep 15 ;;;
       serial_write (port (serial_port self))
                    (":ADR" ++ Py.format_d "0" 2 (address self) ++ ";") ;;;
       sleep 35
   end) ;;;
  serial_write (port (serial_port self)) command ;;;
  sleep 20.

Definition _read_response (self : Zup) : M string :=
  rl <- serial_readline (port (serial_port self)) ;;
  ret (Py.replace rl CRLF "").

Definition _validate_binary_state (state : string) : M string :=
  let state := Py.title state in
  if negb (String.eqb state "Off" || String.eqb state "On")
  then raise (ValueError "Invalid state, must be in (Off, On).")
  else ret state.

(** [float(..)] of a reply. *)
Definition to_float (s : string) : M Q :=
  match Py.float s with
  | Some q => ret q
  | None => raise (ValueError "could not convert string to float")
  end.

(** A query whose reply is a prefix followed by a number. *)
Definition query_float (self : Zup) (command prefix : string) : M Q :=
  _write_command self command ;;;
  r <- _read_response self ;;
  to_float (Py.replace r prefix "").

Definition get_amperage_actual (self : Zup) : M Q := query_float self ":CUR?;" "AA".
Definition get_amperage_set (self : Zup) : M Q := query_float self ":CUR!;" "SA".
Definition get_voltage_actual (self : Zup) : M Q := query_float self ":VOL?;" "AV".
Definition get_voltage_set (self : Zup) : M Q := query_float self ":VOL!;" "SV".
Definition get_under_voltage_protection (self : Zup) : M Q := query_float self ":UVP?;" "UP".
Definition get_over_voltage_protection (self : Zup) : M Q := query_float self ":OVP?;" "OP".

Definition set_amperage (self : Zup) (amperes : Q) : M unit :=
  if negb (Py.between (min_ (CUR self)) amperes (MAX (CUR self)))
  then raise (ValueError "Invalid amperage, must always be in range.")
  else _write_command self (":CUR" ++ Py.format_f (Format (CUR self)) amperes ++ ";").

Definition set_voltage (self : Zup) (volts : Q) : M unit :=
  if negb (Py.between (min_ (VOL self)) volts (MAX (VOL self)))
  then raise (ValueError "Invalid voltage, must *always* be in range.")
  else
    (* get_under_voltage_protection() / 0.95 <= volts <= get_over_voltage_protection() / 1.05 *)
    up <- get_under_voltage_protection self ;;
    ok <- (if Qle_bool (up / 0.95) volts
           then op <- get_over_voltage_protection self ;;
                ret (Qle_bool volts (op / 1.05))
           else ret false) ;;
    if negb ok
    then
      (* the message is formatted from two more queries *)
      get_under_voltage_protection self ;;;
      get_over_voltage_protection self ;;;
      raise (ValueError "Invalid voltage, must *presently* be in range.")
    else _write_command self (":VOL" ++ Py.format_f (Format (VOL self)) volts ++ ";").

Definition set_under_voltage_protection (self : Zup) (volts : Q) : M unit :=
  if negb (Py.between (min_ (UVP self)) volts (MAX (UVP self)))
  then raise (ValueError "Invalid under-voltage, must *always* be in range.")
  else
    ok <- (if Qle_bool (min_ (UVP self)) volts
           then sv <- get_voltage_set self ;;
                ret (Qle_bool volts (sv * 0.95))
           else ret false) ;;
    if negb ok
    then
      get_voltage_set self ;;;
      raise (ValueError "Invalid under-voltage, must *presently* be in range.")
    else _write_command self (":UVP" ++ Py.format_f (Format (UVP self)) volts ++ ";").

Definition set_over_voltage_protection (self : Zup) (volts : Q) : M unit :=
  if negb (Py.between (min_ (OVP self)) volts (MAX (OVP self)))
  then raise (ValueError "Invalid over-voltage, must *always* be in range.")
  else
    sv <- get_voltage_set self ;;
    if negb (Qle_bool (sv * 1.05) volts && Qle_bool volts (MAX (OVP self)))
    then
      get_voltage_set self ;;;
      raise (ValueError "Invalid over-voltage, must *presently* be in range.")
    else
      (* volts = self.UVP['Format'].format(volts) *)
      _write_command self (":OVP" ++ Py.format_f (Format (UVP self)) volts ++ ";").

(** Commands with a two-valued argument. *)
Definition set_binary (self : Zup) (state off on : string) : M unit :=
  state <- _validate_binary_state state ;;
  if String.eqb state "Off" then _write_command self off
  else _write_command self on.

Definition set_power (self : Zup) (state : string) : M unit :=
  set_binary self state ":OUT0;" ":OUT1;".

Definition power_on (self : Zup) : M bool :=
  _write_command self ":OUT?;" ;;;
  r <- _read_response self ;;
  ret (String.eqb r "OT1").

Definition set_autostart (self : Zup) (state : string) : M unit :=
  set_binary self state ":AST0;" ":AST1;".

Definition autostart_on (self : Zup) : M bool :=
  _write_command self ":AST?;" ;;;
  r <- _read_response self ;;
  ret (String.eqb r "AS1").

Definition set_foldback (self : Zup) (state : string) : M unit :=
  let state := Py.title state in
  if negb (String.eqb state "Release" || String.eqb state "Arm" || String.eqb state "Cancel")
  then raise (ValueError "Invalid Foldback state, must be in (Release, Arm, Cancel).")
  else if String.eqb state "Release" then _write_command self ":FLD0;"
  else if String.eqb state "Arm" then _write_command self ":FLD1;"
  else _write_command self ":FLD2;".

Definition foldback_on (self : Zup) : M bool :=
  _write_command self ":FLD?;" ;;;
  r <- _read_response self ;;
  ret (String.eqb r "FD1").

Definition get_model (self : Zup) : M string :=
  _write_command self ":MDL?;" ;;;
  _read_response self.

Definition get_revision (self : Zup) : M string :=
  _write_command self ":REV?;" ;;;
  _read_response self.

Definition clear_registers (self : Zup) : M unit :=
  _write_command self ":DCL;".

Definition set_remote_mode (self : Zup) (state : string) : M unit :=
  let state := Py.title state in
  if negb (String.eqb state "Local" || String.eqb state "Remote Unlatched"
           || String.eqb state "Remote Latched")
  then raise (ValueError "Invalid remote state, must be in (Local, Remote Unlatched, Remote Latched).")
  else if String.eqb state "Local" then _write_command self ":RMT0;"
  else if String.eqb state "Remote Unlatched" then _write_command self ":RMT1;"
  else _write_command self ":RMT2;".

Definition remote_latched (self : Zup) : M bool :=
  _write_command self ":RMT?;" ;;;
  r <- _read_response self ;;
  ret (String.eqb r "RM2").

Definition set_service_request_over_voltage (self : Zup) (state : string) : M unit :=
  set_binary self state ":SRV0;" ":SRV1;".

Definition service_request_over_voltage_on (self : Zup) : M bool :=
  _write_command self ":SRV?;" ;;;
  r <- _read_response self ;;
  ret (String.eqb r ":QV1;").

Definition set_service_request_over_temperature (self : Zup) (state : string) : M unit :=
  set_binary self state ":SRT0;" ":SRT1;".

Definition service_request_over_temperature_on (self : Zup) : M bool :=
  _write_command self ":SRT?;" ;;;
  r <- _read_response self ;;
  ret (String.eqb r ":QT1;").

Definition set_service_request_foldback (self : Zup) (state : string) : M unit :=
  set_binary self state ":SRF0;" ":SRF1;".

Definition service_request_foldback_on (self : Zup) : M bool :=
  _write_command self ":SRF?;" ;;;
  r <- _read_response self ;;
  ret (String.eqb r ":QF1;").

(** [issue_commands_read_responses]: a reply is read only for a command
    whose fifth character is [?] or [!]. *)
Fixpoint issue_commands_read_responses (self : Zup) (commands : list string)
  : M (list (string * string)) :=
  match commands with
  | [] => ret []
  | command :: rest =>
      _write_command self command ;;;
      response <- (let c := Py.slice command 4 5 in
                   if negb (String.eqb c "?" || String.eqb c "!")
                   then ret "N/A"
                   else _read_response self) ;;
      tail <- issue_commands_read_responses self rest ;;
      ret ((command, response) :: tail)
  end.

Definition index_or_raise (s sub : string) : M Z :=
  match Py.index s sub with
  | Some i => ret (Z.of_nat i)
  | None => raise (ValueError "substring not found")
  end.

Definition lookup_or_raise (table : gmap string limits) (key : string) : M limits :=
  match table !! key with
  | Some r => ret r
  | None => raise (KeyError key)
  end.

(** Attributes [CUR], [VOL], [OVP], [UVP] do not exist yet while
    [__init__] runs its first two calls, which do not read them. *)
Definition unset : limits := row 0 0 "".

(** [Zup.__init__]. *)
Definition __init__ (address : Z) (serial_port : Serial) : M Zup :=
  if negb (ADDRESS_RANGE address)
  then raise (ValueError "Invalid address, must be in range(1, 32).")
  else if negb (existsb (Z.eqb (baudrate serial_port)) BAUD_RATES)
  then raise (ValueError "Invalid baud rate.")
  else
    let self := {| serial_port := serial_port; address := address;
                   CUR := unset; VOL := unset; OVP := unset; UVP := unset |} in
    set_remote_mode self "Remote Latched" ;;;
    mdl <- get_model self ;;
    i <- index_or_raise mdl "(" ;;
    j <- index_or_raise mdl ")" ;;
    let mdl := Py.slice mdl (i + 1) j in
    k <- index_or_raise mdl "V" ;;
    let v := Py.slice mdl 0 k in
    i <- index_or_raise mdl "-" ;;
    j <- index_or_raise mdl "A" ;;
    let a := Py.slice mdl (i + 1) j in
    cur <- lookup_or_raise CURs ("ZUP" ++ v ++ "-" ++ a) ;;
    let mdl := "ZUP" ++ v ++ "-XY" in
    vol <- lookup_or_raise VOLs mdl ;;
    ovp <- lookup_or_raise OVPs mdl ;;
    uvp <- lookup_or_raise UVPs mdl ;;
    ret {| serial_port := serial_port; address := address;
           CUR := cur; VOL := vol; OVP := ovp; UVP := uvp |}.

End Zup.

(** ** [OldCode/ABT_ZUp.py]: the multi-supply sequencer *)

Module ABT_ZUp.

Definition _DEBUG : bool := false.
Definition _ZUp_VOL_TOLERANCE : Q := 10.
Definition _ZUp_CUR_TOLERANCE : Q := 5.

(** A ZUp: the list [[Address, Voltage, Amperage, Foldback]]. *)
Record ZUp := {
  Address : Z;
  Voltage : Q;
  Amperage : Q;
  Foldback : string
}.

(** The [while] loop of [_Format]: one ['0'] is prepended per iteration
    as long as the text is shorter than [target]. *)
Fixpoint pad_loop (fuel target : nat) (valFormat : string) : string :=
  match fuel with
  | O => valFormat
  | S f =>
      if Nat.ltb (String.length valFormat) target
      then pad_loop f target ("0" ++ valFormat)
      else valFormat
  end.

(** [_Format(valReal, digitsLeading, digitsTrailing)]. *)
Definition _Format (valReal : Q) (digitsLeading digitsTrailing : nat) : string :=
  let frmt := {| Py.fill := " "%char; Py.width := digitsLeading;
                 Py.precision := digitsTrailing |} in
  let valFormat := Py.format_f frmt (Py.round valReal digitsTrailing) in
  pad_loop (digitsLeading + digitsTrailing + 1) (digitsLeading + digitsTrailing + 1) valFormat.

Definition _ZUp_WriteCommand (Command : string) (PortSerial : Serial) : M unit :=
  if String.eqb (Py.slice Command 0 4) ":ADR"
  then sleep 15 ;;; serial_write (port PortSerial) Command ;;; sleep 35
  else serial_write (port PortSerial) Command ;;; sleep 20.

Definition _ZUp_ReadResponse (PortSerial : Serial) : M string :=
  serial_readline (port PortSerial).

Definition _ZUp_FormatAddress (Address : Z) : string :=
  if (Address <? 10)%Z then "0" ++ Py.str_Z Address else Py.str_Z Address.

Definition index_or_raise (s sub : string) : M Z :=
  match Py.index s sub with
  | Some i => ret (Z.of_nat i)
  | None => raise (ValueError "substring not found")
  end.

Definition to_float (s : string) : M Q :=
  match Py.float s with
  | Some q => ret q
  | None => raise (ValueError "could not convert string to float")
  end.

Definition _ZUp_GetModel (ZUp : ZUp) (PortSerial : Serial) : M string :=
  _ZUp_WriteCommand ":MDL?;" PortSerial ;;;
  MDL <- _ZUp_ReadResponse PortSerial ;;
  i <- index_or_raise MDL "(" ;;
  j <- index_or_raise MDL ")" ;;
  ret (Py.slice MDL (i + 1) j).

Definition query (Command : string) (PortSerial : Serial) : M string :=
  _ZUp_WriteCommand Command PortSerial ;;;
  _ZUp_ReadResponse PortSerial.

Definition _ZUp_ReadStatus (Address : Z) (PortSerial : Serial) : M string :=
  _ZUp_WriteCommand (":ADR" ++ _ZUp_FormatAddress Address ++ ";") PortSerial ;;;
  AV <- query ":VOL?;" PortSerial ;;
  AA <- query ":CUR?;" PortSerial ;;
  OS <- query ":STA?;" PortSerial ;;
  AL <- query ":ALM?;" PortSerial ;;
  PS <- query ":STP?;" PortSerial ;;
  RM <- query ":RMT?;" PortSerial ;;
  MD <- query ":MDL?;" PortSerial ;;
  RV <- query ":REV?;" PortSerial ;;
  VS <- query ":VOL!;" PortSerial ;;
  CS <- query ":CUR!;" PortSerial ;;
  FL <- query ":FLD?;" PortSerial ;;
  OV <- query ":OVP?;" PortSerial ;;
  UV <- query ":UVP?;" PortSerial ;;
  AS <- query ":AST?;" PortSerial ;;
  ret (AV ++ AA ++ OS ++ AL ++ PS ++ RM ++ MD ++ RV ++ VS ++ CS ++ FL ++ OV ++ UV ++ AS).

Definition _ZUps_GetAddresses (ZUps : list ZUp) : list Z := map Address ZUps.

Definition in_1_31 (n : Z) : bool := ((1 <=? n) && (n <? 32))%Z.

(** Raise the report when it is not empty. *)
Definition raise_if_any (mk : list failure -> exn) (Failures : list failure) : M unit :=
  match Failures with
  | [] => ret tt
  | _ => raise (mk Failures)
  end.

Definition _ZUps_VerifyAddresses (Addresses : list Z) : M unit :=
  let Failures :=
    ((if negb (in_1_31 (Z.of_nat (length Addresses))) then [BadAddressCount] else [])
       ++ flat_map (fun Address => if negb (in_1_31 Address) then [BadAddress Address] else [])
                   Addresses)%list in
  raise_if_any ValueErrorReport Failures.

Definition _ZUps_VerifyFoldbacks (ZUps : list ZUp) : M unit :=
  let Failures :=
    flat_map (fun ZUp =>
                let f := Py.upper (Foldback ZUp) in
                if negb (String.eqb f "FLD_ON" || String.eqb f "FLD_OFF")
                then [BadFoldback (Address ZUp)] else [])
             ZUps in
  raise_if_any ValueErrorReport Failures.

Definition _ZUps_VerifyBaud (Baud : Z) : M unit :=
  if negb (existsb (Z.eqb Baud) [300; 600; 1200; 2400; 4800; 9600]%Z)
  then raise (ValueError "Baud rate must be an integer in set {300, 600, 1200, 2400, 4800, 9600}.")
  else ret tt.

Definition _ZUps_GetPortSerial (SerialPort : string) (Baud : Z) : M Serial :=
  ret {| port := SerialPort; baudrate := Baud |}.

(** A loop that accumulates a failure report. *)
Fixpoint collect {A} (xs : list A) (body : A -> M (list failure)) : M (list failure) :=
  match xs with
  | [] => ret []
  | x :: rest =>
      fs <- body x ;;
      more <- collect rest body ;;
      ret (fs ++ more)%list
  end.

Definition _ZUps_VerifySetVAs (ZUps : list ZUp) (PortSerial : Serial) : M unit :=
  Failures <- collect ZUps (fun ZUp =>
    _ZUp_WriteCommand (":ADR" ++ _ZUp_FormatAddress (Address ZUp) ++ ";") PortSerial ;;;
    MDL <- _ZUp_GetModel ZUp PortSerial ;;
    iV <- index_or_raise MDL "V" ;;
    V <- to_float (Py.slice MDL 0 iV) ;;
    iD <- index_or_raise MDL "-" ;;
    iA <- index_or_raise MDL "A" ;;
    A <- to_float (Py.slice MDL (iD + 1) iA) ;;
    ret ((if negb (Py.between 0 (Voltage ZUp) V)
          then [VoltageOutside (Address ZUp)] else [])
         ++ (if negb (Py.between 0 (Amperage ZUp) (A * (1 + _ZUp_CUR_TOLERANCE)))
             then [AmperageOutside (Address ZUp)] else []))%list) ;;
  match Failures with
  | [] => ret tt
  | _ => serial_close (port PortSerial) ;;; raise (ValueErrorReport Failures)
  end.

Definition _ZUps_SetPower (Addresses : list Z) (PortSerial : Serial) (DesiredState : string)
  : M unit :=
  for_each Addresses (fun Address =>
    _ZUp_WriteCommand (":ADR" ++ _ZUp_FormatAddress Address ++ ";") PortSerial ;;;
    if String.eqb (Py.lower DesiredState) "off"
    then _ZUp_WriteCommand ":OUT0;" PortSerial
    else _ZUp_WriteCommand ":OUT1;" PortSerial).

Definition _ZUps_VerifyPower (Addresses : list Z) (PortSerial : Serial) (ExpectedState : string)
  : M unit :=
  Failures <- collect Addresses (fun Address =>
    _ZUp_WriteCommand (":ADR" ++ _ZUp_FormatAddress Address ++ ";") PortSerial ;;;
    _ZUp_WriteCommand ":STA?;" PortSerial ;;;
    OSR <- _ZUp_ReadResponse PortSerial ;;
    if String.eqb (Py.slice OSR 5 6) "0" && String.eqb (Py.upper ExpectedState) "ON"
    then status <- _ZUp_ReadStatus Address PortSerial ;;
         ret [FailedToTurnOn Address status]
    else if String.eqb (Py.slice OSR 5 6) "1" && String.eqb (Py.lower ExpectedState) "off"
    then status <- _ZUp_ReadStatus Address PortSerial ;;
         ret [FailedToTurnOff Address status]
    else ret []) ;;
  match Failures with
  | [] => ret tt
  | _ => serial_close (port PortSerial) ;;; raise (RuntimeErrorReport Failures)
  end.

Definition _ZUps_CleanUp (Addresses : list Z) (PortSerial : Serial) : M unit :=
  for_each Addresses (fun Address =>
    _ZUp_WriteCommand (":ADR" ++ _ZUp_FormatAddress Address ++ ";") PortSerial ;;;
    _ZUp_WriteCommand ":RMT1;" PortSerial ;;;
    _ZUp_WriteCommand ":DCL;" PortSerial ;;;
    _ZUp_WriteCommand ":FLD2;" PortSerial ;;;
    _ZUp_WriteCommand ":AST0;" PortSerial).

Definition _ZUps_VerifyActualVAs (ZUps : list ZUp) (PortSerial : Serial) : M unit :=
  sleep 1000 ;;;
  Failures <- collect ZUps (fun ZUp =>
    _ZUp_WriteCommand (":ADR" ++ _ZUp_FormatAddress (Address ZUp) ++ ";") PortSerial ;;;
    _ZUp_WriteCommand ":VOL?;" PortSerial ;;;
    AV <- _ZUp_ReadResponse PortSerial ;;
    V <- to_float (Py.slice AV 2 (Z.of_nat (String.length AV) - 2)) ;;
    _ZUp_WriteCommand ":CUR?;" PortSerial ;;;
    AA <- _ZUp_ReadResponse PortSerial ;;
    A <- to_float (Py.slice AA 2 (Z.of_nat (String.length AA) - 2)) ;;
    fV <- (if negb (Py.between (Voltage ZUp * (1 - _ZUp_VOL_TOLERANCE / 100)) V
                               (Voltage ZUp * (1 + _ZUp_VOL_TOLERANCE / 100)))
           then status <- _ZUp_ReadStatus (Address ZUp) PortSerial ;;
                ret [OutsideTolerance (Address ZUp) status]
           else ret []) ;;
    fA <- (if negb (Py.between 0 A (Amperage ZUp * (1 + _ZUp_CUR_TOLERANCE)))
           then status <- _ZUp_ReadStatus (Address ZUp) PortSerial ;;
                ret [ExceedsAmperage (Address ZUp) status]
           else ret []) ;;
    (if _DEBUG then _ZUp_ReadStatus (Address ZUp) PortSerial ;;; ret tt else ret tt) ;;;
    ret (fV ++ fA)%list) ;;
  match Failures with
  | [] => ret tt
  | _ => serial_close (port PortSerial) ;;; raise (RuntimeErrorReport Failures)
  end.

(** [MDL == m1 or MDL == m2 or ...]. *)
Definition is_one_of (MDL : string) (models : list string) : bool :=
  existsb (String.eqb MDL) models.

(** The command texts [_ZUps_PowerVAs] prepares for one supply. *)
Record commands := {
  UVP : string; UVPmin : string;
  OVP : string; OVPmax : string;
  VOL : string; CUR : string
}.

Definition prepare (MDL : string) (ZUp : ZUp) : commands :=
  let V := Voltage ZUp in
  let VOL :=
    if is_one_of MDL ["6V-33A"; "6V-66A"; "6V-132A"] then _Format V 1 3
    else if is_one_of MDL ["10V-20A"; "10V-40A"; "10V-80A"; "20V-10A"; "20V-20A"; "20V-40A"]
    then _Format V 2 3
    else if is_one_of MDL ["36V-6A"; "36V-12A"; "36V-24A"; "60V-3.5A"; "60V-7A"; "60V-14A";
                           "80V-2.5A"; "80V-5A"]
    then _Format V 2 2
    else _Format V 3 2 in
  let A := Amperage ZUp in
  let CUR :=
    if is_one_of MDL ["6V-33A"; "6V-66A"; "10V-40A"; "10V-80A"; "20V-40A"] then _Format A 2 2
    else if is_one_of MDL ["6V-132A"] then _Format A 3 2
    else if is_one_of MDL ["10V-20A"; "20V-10A"; "20V-20A"; "36V-12A"; "36V-24A"; "60V-14A"]
    then _Format A 2 3
    else if is_one_of MDL ["36V-6A"; "60V-3.5A"; "60V-7A"; "80V-5A"; "120V-3.6"]
    then _Format A 1 3
    else _Format A 1 4 in
  let uv := (Voltage ZUp * (1 - _ZUp_VOL_TOLERANCE / 100))%Q in
  let '(UVP, UVPmin) :=
    if is_one_of MDL ["6V-33A"; "6V-66A"; "6V-132A"; "10V-20A"; "10V-40A"; "10V-80A"]
    then (_Format uv 1 2, _Format 0 1 2)
    else if is_one_of MDL ["120V-1.8A"; "120V-3.6A"]
    then (_Format uv 3 1, _Format 0 3 1)
    else (_Format uv 2 1, _Format 0 2 1) in
  let ov := (Voltage ZUp * (1 + _ZUp_VOL_TOLERANCE / 100))%Q in
  let at_least (lo : Q) := if Py.lt ov lo then lo else ov in
  let '(OVP, OVPmax) :=
    if is_one_of MDL ["6V-33A"; "6V-66A"; "6V-132A"]
    then (_Format (at_least 0.2%Q) 1 2, _Format 7.50 1 2)
    else if is_one_of MDL ["10V-20A"; "10V-40A"; "10V-80A"]
    then (_Format (at_least 0.5%Q) 2 1, _Format 13.0 2 1)
    else if is_one_of MDL ["20V-10A"; "20V-20A"; "20V-40A"]
    then (_Format (at_least 1.0%Q) 2 1, _Format 24.0 2 1)
    else if is_one_of MDL ["36V-6A"; "36V-12A"; "36V-24A"]
    then (_Format (at_least 1.8%Q) 2 1, _Format 40.0 2 1)
    else if is_one_of MDL ["60V-3.5A"; "60V-7A"; "60V-14A"]
    then (_Format (at_least 3.0%Q) 2 1, _Format 66.0 2 1)
    else if is_one_of MDL ["80V-2.5A"; "80V-5A"]
    then (_Format (at_least 4.0%Q) 2 1, _Format 88.0 2 1)
    else (_Format (at_least 6.0%Q) 3 1, _Format 132.0 3 1) in
  {| UVP := ":UVP" ++ UVP ++ ";"; UVPmin := ":UVP" ++ UVPmin ++ ";";
     OVP := ":OVP" ++ OVP ++ ";"; OVPmax := ":OVP" ++ OVPmax ++ ";";
     VOL := ":VOL" ++ VOL ++ ";"; CUR := ":CUR" ++ CUR ++ ";" |}.

(** The body of the loop of [_ZUps_PowerVAs], for one supply. *)
Definition power_one (PortSerial : Serial) (ZUp : ZUp) : M unit :=
  _ZUp_WriteCommand (":ADR" ++ _ZUp_FormatAddress (Address ZUp) ++ ";") PortSerial ;;;
  _ZUp_WriteCommand ":RMT2;" PortSerial ;;;
  _ZUp_WriteCommand ":DCL;" PortSerial ;;;
  _ZUp_WriteCommand ":AST0;" PortSerial ;;;
  (if String.eqb (Py.upper (Foldback ZUp)) "FLD_ON"
   then _ZUp_WriteCommand ":FLD1;" PortSerial
   else _ZUp_WriteCommand ":FLD2;" PortSerial) ;;;
  _ZUp_WriteCommand ":SRV0;" PortSerial ;;;
  _ZUp_WriteCommand ":SRT0;" PortSerial ;;;
  _ZUp_WriteCommand ":SRF0;" PortSerial ;;;
  MDL <- _ZUp_GetModel ZUp PortSerial ;;
  let c := prepare MDL ZUp in
  _ZUp_WriteCommand (UVPmin c) PortSerial ;;;
  _ZUp_WriteCommand (OVPmax c) PortSerial ;;;
  _ZUp_WriteCommand ":CUR!;" PortSerial ;;;
  SA <- _ZUp_ReadResponse PortSerial ;;
  set <- to_float (Py.slice SA 2 (Z.of_nat (String.length SA) - 2)) ;;
  (if Py.lt set (Amperage ZUp)
   then _ZUp_WriteCommand (CUR c) PortSerial
   else ret tt) ;;;
  _ZUp_WriteCommand (VOL c) PortSerial ;;;
  _ZUp_WriteCommand ":OUT1;" PortSerial ;;;
  sleep 250 ;;;
  _ZUp_WriteCommand (CUR c) PortSerial ;;;
  _ZUp_WriteCommand (OVP c) PortSerial ;;;
  _ZUp_WriteCommand (UVP c) PortSerial.

Definition _ZUps_PowerVAs (ZUps : list ZUp) (PortSerial : Serial) : M unit :=
  for_each ZUps (power_one PortSerial).

Definition ZUps_ON (ZUps : list ZUp) (SerialPort : string) (Baud : Z) : M unit :=
  let Addresses := _ZUps_GetAddresses ZUps in
  _ZUps_VerifyAddresses Addresses ;;;
  _ZUps_VerifyFoldbacks ZUps ;;;
  _ZUps_VerifyBaud Baud ;;;
  PortSerial <- _ZUps_GetPortSerial SerialPort Baud ;;
  _ZUps_VerifySetVAs ZUps PortSerial ;;;
  _ZUps_PowerVAs ZUps PortSerial ;;;
  _ZUps_VerifyActualVAs ZUps PortSerial ;;;
  serial_close (port PortSerial).

Definition ZUps_off (Addresses : list Z) (SerialPort : string) (Baud : Z) : M unit :=
  _ZUps_VerifyAddresses Addresses ;;;
  _ZUps_VerifyBaud Baud ;;;
  PortSerial <- _ZUps_GetPortSerial SerialPort Baud ;;
  _ZUps_SetPower Addresses PortSerial "off" ;;;
  _ZUps_VerifyPower Addresses PortSerial "off" ;;;
  _ZUps_CleanUp Addresses PortSerial ;;;
  serial_close (port PortSerial).

End ABT_ZUp.

(** ** Vocabulary of the specification *)

(** The addressing command for an address. *)
Definition adr_text (address : Z) : string :=
  ":ADR" ++ Py.format_d "0" 2 address ++ ";".

Definition adr_command (self : Zup.Zup) : string := adr_text (Zup.address self).

(** The addressing preamble of [Zup._write_command]: nothing when the
    supply is the one listening on its port, otherwise the addressing
    command between its two settle delays. *)
Definition addressing_of (p : string) (address : Z) (la : gmap string Z) : list event :=
  if decide (la !! p = Some address)
  then []
  else [Sleep 15; Tx p (adr_text address); Sleep 35].

Definition addressing (self : Zup.Zup) (la : gmap string Z) : list event :=
  addressing_of (port (Zup.serial_port self)) (Zup.address self) la.

(** A sequence of commands, each issued through some [Zup] object. *)
Definition issue_all (cs : list (Zup.Zup * string)) : M unit :=
  for_each cs (fun zc => Zup._write_command (fst zc) (snd zc)).

(** What the bus-session rule prescribes for such a sequence on port [p],
    when [cur] is the address listening before it: the addressing command,
    with its delays, exactly when the next command goes to another
    address. *)
Fixpoint prescribed (p : string) (cur : option Z) (cs : list (Zup.Zup * string))
  : list event :=
  match cs with
  | [] => []
  | (z, c) :: rest =>
      ((if decide (cur = Some (Zup.address z)) then []
        else [Sleep 15; Tx p (adr_command z); Sleep 35])
         ++ [Tx p c; Sleep 20]
         ++ prescribed p (Some (Zup.address z)) rest)%list
  end.

(** The address the port listens to after a sequence of commands. *)
Definition listening_after (cur : option Z) (cs : list (Zup.Zup * string)) : option Z :=
  match last (map (fun zc => Some (Zup.address (fst zc))) cs) with
  | Some a => a
  | None => cur
  end.

(** *** Timing *)

(** An addressing command on the wire. *)
Definition is_ADR (d : string) : bool := String.prefix ":ADR" d.






(** The calls through which the library touches a port or the clock:
    every method of [Zup] and every function of the sequencer is a
    composition of these and of pure computations. *)
Inductive op :=
| ZupWrite (self : Zup.Zup) (command : string)      (* Zup._write_command *)
| ZupRead (self : Zup.Zup)                          (* Zup._read_response *)
| OldWrite (Command : string) (PortSerial : Serial) (* _ZUp_WriteCommand *)
| OldRead (PortSerial : Serial)                     (* _ZUp_ReadResponse *)
| Pause (ms : N)                                    (* time.sleep *)
| Closing (PortSerial : Serial).                    (* PortSerial.close *)




(** *** Sample objects *)

Definition COM1 : Serial := {| port := "COM1"; baudrate := 9600 |}.

(** A ZUP10-20 at [address], as [Zup.__init__] builds it. *)
Definition zup10_20 (address : Z) : Zup.Zup :=
  {| Zup.serial_port := COM1; Zup.address := address;
     Zup.CUR := Zup.row 0.0 21.000 "2.3";
     Zup.VOL := Zup.row 0.0 10.500 "2.3";
     Zup.OVP := Zup.row 0.5 13.0 "2.1";
     Zup.UVP := Zup.row 0.0 9.97 "1.2" |}.

(** A world in which nothing has happened yet and [lines] are what the
    supplies on COM1 will answer. *)
Definition fresh (lines : list string) : world :=
  {| listening_addresses := ∅;
     inbox := {[ "COM1" := lines ]};
     trace := [] |}.

(** The events a computation adds to the trace of [w]. *)
Definition events_of {A} (m : M A) (w : world) : list event :=
  drop (length (trace w)) (trace (snd (m w))).

(** The reply [_read_response] will return next on port [p]: the pending
    line without its line terminator, or nothing at all on a timeout. *)
Definition next_reply (w : world) (p : string) : string :=
  match inbox w !! p with
  | Some (line :: _) => Py.replace line CRLF ""
  | _ => ""
  end.

(** *** What a computation puts on the wire *)

(** An event is acceptable when, if it is a write, its data satisfies [P]. *)
Definition writes_only (P : string -> Prop) (e : event) : Prop :=
  match e with
  | Tx _ d => P d
  | _ => True
  end.

(** [m] only ever extends the trace, and every write it adds satisfies [P],
    whether it returns or raises. *)
Definition only {A} (P : string -> Prop) (m : M A) : Prop :=
  forall w, exists evs,
    trace (snd (m w)) = (trace w ++ evs)%list /\ Forall (writes_only P) evs.

(** [m] only extends the trace, and when it raises every write it has
    added satisfies [P]. *)
Definition only_if_raised {A} (P : string -> Prop) (m : M A) : Prop :=
  forall w, exists evs,
    trace (snd (m w)) = (trace w ++ evs)%list
    /\ (forall e, fst (m w) = Raise e -> Forall (writes_only P) evs).

(** [m] never raises. *)
Definition never_raises {A} (m : M A) : Prop :=
  forall w, exists a, fst (m w) = Ok a.

Definition anything (d : string) : Prop := True.

(** The only commands [Zup.set_voltage] may have written when it fails. *)
Definition voltage_query (self : Zup.Zup) (d : string) : Prop :=
  d = adr_command self \/ d = ":UVP?;" \/ d = ":OVP?;".

(** The replies of a supply of the given model. *)
Definition model_reply (model : string) : string :=
  "Nemic-Lambda ZUP(" ++ model ++ ")" ++ CRLF.

(** *** Power-off *)

Definition cleanup_commands : list string := [":RMT1;"; ":DCL;"; ":FLD2;"; ":AST0;"].

(** [d] is none of the commands of the clean-up phase. *)
Definition not_cleanup (d : string) : Prop :=
  existsb (String.eqb d) cleanup_commands = false.

(** What the clean-up phase does for one address. *)
Definition cleanup_events (p : string) (Address : Z) : list event :=
  [Sleep 15; Tx p (":ADR" ++ ABT_ZUp._ZUp_FormatAddress Address ++ ";"); Sleep 35;
   Tx p ":RMT1;"; Sleep 20; Tx p ":DCL;"; Sleep 20;
   Tx p ":FLD2;"; Sleep 20; Tx p ":AST0;"; Sleep 20].

(** When [m] returns, what it added to the trace ends with [tail], and the
    writes before [tail] satisfy [P]. *)
Definition on_success {A} (P : string -> Prop) (tail : list event) (m : M A) : Prop :=
  forall w a, fst (m w) = Ok a ->
    exists pre,
      trace (snd (m w)) = (trace w ++ pre ++ tail)%list
      /\ Forall (writes_only P) pre.

(** *** Power-on *)

(** The commands [_ZUps_PowerVAs] writes for one supply whose model reply
    was [MDL]; [raised] tells whether the current had to be raised before
    the voltage. *)
Definition power_block (ZUp : ABT_ZUp.ZUp) (MDL : string) (raised : bool) : list string :=
  let c := ABT_ZUp.prepare MDL ZUp in
  let adr := ":ADR" ++ ABT_ZUp._ZUp_FormatAddress (ABT_ZUp.Address ZUp) ++ ";" in
  ([adr;
    ":RMT2;"; ":DCL;"; ":AST0;";
    if String.eqb (Py.upper (ABT_ZUp.Foldback ZUp)) "FLD_ON" then ":FLD1;" else ":FLD2;";
    ":SRV0;"; ":SRT0;"; ":SRF0;"; ":MDL?;";
    ABT_ZUp.UVPmin c; ABT_ZUp.OVPmax c; ":CUR!;"]
     ++ (if raised then [ABT_ZUp.CUR c] else [])
     ++ [ABT_ZUp.VOL c; ":OUT1;"; ABT_ZUp.CUR c; ABT_ZUp.OVP c; ABT_ZUp.UVP c])%list.

(** The part a command plays in the power-on procedure.  A protection
    command ([:UVP..], [:OVP..]) opens the window of a supply that has not
    been energized yet, and restores it afterwards. *)
Inductive role := Opening | Setting | Energize | Restoring | Neutral.

(** A programming command: the keyword is followed by a number. *)
Definition programs (keyword d : string) : bool :=
  String.prefix keyword d
  && match String.get 4 d with
     | Some c => match Py.digit_val c with Some _ => true | None => false end
     | None => false
     end.

(** The roles of a sequence of writes; [cur] is the last addressing
    command and [energized] the addressing commands of the supplies that
    have received [:OUT1;]. *)
Fixpoint roles (cur : string) (energized : list string) (ws : list string) : list role :=
  match ws with
  | [] => []
  | d :: rest =>
      if is_ADR d then Neutral :: roles d energized rest
      else if String.eqb d ":OUT1;" then Energize :: roles cur (cur :: energized) rest
      else if programs ":VOL" d || programs ":CUR" d then Setting :: roles cur energized rest
      else if programs ":UVP" d || programs ":OVP" d
      then (if existsb (String.eqb cur) energized then Restoring else Opening)
             :: roles cur energized rest
      else Neutral :: roles cur energized rest
  end.

(** The order of phases C1 states: no supply has its window opened after
    any supply has been programmed or energized, and no supply is
    energized after any supply has had its protection restored. *)
Fixpoint phases_in_order (programmed restored : bool) (rs : list role) : bool :=
  match rs with
  | [] => true
  | Opening :: rest => negb programmed && phases_in_order programmed restored rest
  | Setting :: rest => phases_in_order true restored rest
  | Energize :: rest => negb restored && phases_in_order true restored rest
  | Restoring :: rest => phases_in_order programmed true rest
  | Neutral :: rest => phases_in_order programmed restored rest
  end.

Definition phase_ordered (ws : list string) : bool :=
  phases_in_order false false (roles "" [] ws).

(** The plan of the specification's example, and the replies of two
    36V-6A supplies to it. *)
Definition two_supplies : list ABT_ZUp.ZUp :=
  [ {| ABT_ZUp.Address := 1; ABT_ZUp.Voltage := 3.3; ABT_ZUp.Amperage := 1.0;
       ABT_ZUp.Foldback := "FLD_off" |};
    {| ABT_ZUp.Address := 2; ABT_ZUp.Voltage := 5.0; ABT_ZUp.Amperage := 1.0;
       ABT_ZUp.Foldback := "FLD_on" |} ].

Definition two_supplies_replies : list string :=
  [ model_reply "36V-6A"; "SA0.500" ++ CRLF; model_reply "36V-6A"; "SA2.000" ++ CRLF ].

(** ** The monad *)

Lemma bind_ok {A B} (m : M A) (k : A -> M B) (w w' : world) (a : A) :
  m w = (Ok a, w') -> bind m k w = k a w'.
Proof. intros H. unfold bind. now rewrite H. Qed.

Lemma bind_raise {A B} (m : M A) (k : A -> M B) (w w' : world) (e : exn) :
  m w = (Raise e, w') -> bind m k w = (Raise e, w').
Proof. intros H. unfold bind. now rewrite H. Qed.

(** ** Bus session: [Zup._write_command] *)

Section BusSession.

Implicit Types (self : Zup.Zup) (w : world) (la : gmap string Z).

(** The whole effect of one call. *)
Lemma _write_command_eq self command w :
  Zup._write_command self command w =
    (Ok tt,
     {| listening_addresses :=
          <[port (Zup.serial_port self) := Zup.address self]> (listening_addresses w);
        inbox := inbox w;
        trace := (trace w ++ addressing self (listening_addresses w)
                    ++ [Tx (port (Zup.serial_port self)) command; Sleep 20])%list |}).
Proof.
  unfold Zup._write_command, addressing, addressing_of, adr_command, adr_text, bind, get_listening,
    set_listening, sleep, serial_write, emit, ret.
  cbn [listening_addresses inbox trace].
  destruct (decide (listening_addresses w !! port (Zup.serial_port self)
                    = Some (Zup.address self))) as [E|E].
  - rewrite E, Z.eqb_refl. cbn [listening_addresses inbox trace].
    rewrite insert_id by exact E.
    now rewrite <- !app_assoc.
  - destruct (listening_addresses w !! port (Zup.serial_port self)) as [a|].
    + destruct (Z.eqb_spec a (Zup.address self)) as [->|Hne]; [congruence|].
      cbn [listening_addresses inbox trace]. now rewrite <- !app_assoc.
    + cbn [listening_addresses inbox trace]. now rewrite <- !app_assoc.
Qed.

Lemma issue_all_eq (p : string) (cs : list (Zup.Zup * string)) w :
  Forall (fun zc => port (Zup.serial_port (fst zc)) = p) cs ->
  exists w',
    issue_all cs w = (Ok tt, w')
    /\ trace w' = (trace w ++ prescribed p (listening_addresses w !! p) cs)%list
    /\ listening_addresses w' !! p = listening_after (listening_addresses w !! p) cs
    /\ inbox w' = inbox w.
Proof.
  intros Hp. revert w. induction Hp as [|[z c] cs Hz Hcs IH]; intros w.
  - exists w. unfold issue_all, listening_after. simpl.
    now rewrite app_nil_r.
  - simpl in Hz. unfold issue_all. simpl.
    unfold bind at 1. rewrite _write_command_eq.
    match goal with |- context [for_each cs ?f ?w1] =>
      destruct (IH w1) as (w' & Hrun & Htr & Hla & Hin) end.
    exists w'. unfold issue_all in Hrun. rewrite Hrun.
    simpl in Htr, Hla, Hin. rewrite Hz in Htr, Hla.
    rewrite lookup_insert_eq in Htr, Hla.
    split; [reflexivity|]. split; [|split].
    + rewrite Htr. unfold addressing, addressing_of. rewrite Hz.
      destruct (decide (listening_addresses w !! p = Some (Zup.address z))); simpl.
      all: rewrite <- app_assoc; reflexivity.
    + rewrite Hla. unfold listening_after. cbn [map fst].
      rewrite last_cons.
      now destruct (last (map (fun zc0 => Some (Zup.address (fst zc0))) cs)).
    + exact Hin.
Qed.

End BusSession.

(** C4: through [Zup] objects sharing a port, the addressing command is
    emitted before a command exactly when the port listens to another
    address (or to none); it comes with its 15 ms and 35 ms delays;
    consecutive commands to one address are not re-addressed; and after a
    command to address A the dictionary entry of the port is A. *)
Theorem bus_session_addresses_on_change (p : string) (cs : list (Zup.Zup * string)) (w : world) :
  Forall (fun zc => port (Zup.serial_port (fst zc)) = p) cs ->
  exists w',
    issue_all cs w = (Ok tt, w')
    /\ trace w' = (trace w ++ prescribed p (listening_addresses w !! p) cs)%list
    /\ (forall pre z c, cs = (pre ++ [(z, c)])%list ->
                        listening_addresses w' !! p = Some (Zup.address z)).
Proof.
  intros Hp. destruct (issue_all_eq p cs w Hp) as (w' & Hrun & Htr & Hla & _).
  exists w'. split; [exact Hrun|]. split; [exact Htr|].
  intros pre z c ->. rewrite Hla. unfold listening_after.
  rewrite map_app. cbn [map fst]. now rewrite last_snoc.
Qed.

Lemma bus_session_addresses_on_change_witness :
  Forall (fun zc => port (Zup.serial_port (fst zc)) = "COM1")
         [(zup10_20 1, ":VOL05.000;"); (zup10_20 1, ":CUR01.000;"); (zup10_20 2, ":OUT1;")]
  /\ exists w',
      issue_all [(zup10_20 1, ":VOL05.000;"); (zup10_20 1, ":CUR01.000;"); (zup10_20 2, ":OUT1;")]
                (fresh []) = (Ok tt, w')
      /\ trace w' = [Sleep 15; Tx "COM1" ":ADR01;"; Sleep 35;
                     Tx "COM1" ":VOL05.000;"; Sleep 20;
                     Tx "COM1" ":CUR01.000;"; Sleep 20;
                     Sleep 15; Tx "COM1" ":ADR02;"; Sleep 35;
                     Tx "COM1" ":OUT1;"; Sleep 20]
      /\ listening_addresses w' !! "COM1" = Some 2%Z.
Proof.
  assert (H : Forall (fun zc => port (Zup.serial_port (fst zc)) = "COM1")
                [(zup10_20 1, ":VOL05.000;"); (zup10_20 1, ":CUR01.000;");
                 (zup10_20 2, ":OUT1;")]) by (repeat constructor).
  split; [exact H|].
  destruct (bus_session_addresses_on_change "COM1" _ (fresh []) H) as (w' & Hrun & Htr & Hla).
  exists w'. split; [exact Hrun|]. split; [exact Htr|].
  exact (Hla [(zup10_20 1, ":VOL05.000;"); (zup10_20 1, ":CUR01.000;")]
             (zup10_20 2) ":OUT1;" eq_refl).
Defined.

(** ** Timing of the wire *)

Section Timing.






Lemma prefix_append (s x : string) : String.prefix s (s ++ x) = true.
Proof.
  induction s as [|a s IH]; [cbn; destruct x; reflexivity|].
  simpl. destruct (ascii_dec a a); [exact IH|congruence].
Qed.


Lemma substring_0_min (n : nat) (s : string) :
  substring 0 (Nat.min n (String.length s)) s = substring 0 n s.
Proof.
  revert n. induction s as [|c s IH]; intros [|n]; try reflexivity.
  cbn [String.length Nat.min substring]. now rewrite IH.
Qed.

Lemma slice_from_0 (s : string) (n : nat) :
  Py.slice s 0 (Z.of_nat n) = substring 0 n s.
Proof.
  unfold Py.slice, Py.clamp.
  replace (0 <? 0)%Z with false by reflexivity.
  replace (Z.of_nat n <? 0)%Z with false by (symmetry; apply Z.ltb_ge; lia).
  replace (Z.min 0 (Z.of_nat (String.length s))) with 0%Z by lia.
  rewrite Z.sub_0_r, <- Nat2Z.inj_min, Nat2Z.id. apply substring_0_min.
Qed.

(** [Command[0:4] == ':ADR'] is the prefix test. *)
Lemma slice_is_ADR (Command : string) :
  String.eqb (Py.slice Command 0 4) ":ADR" = is_ADR Command.
Proof.
  change 4%Z with (Z.of_nat 4). rewrite slice_from_0. unfold is_ADR.
  destruct (String.eqb_spec (substring 0 4 Command) ":ADR") as [E|N].
  - symmetry. now apply String.prefix_correct.
  - destruct (String.prefix ":ADR" Command) eqn:P; [|reflexivity].
    now apply String.prefix_correct in P.
Qed.



End Timing.



(** ** Binary-state queries *)

Section BinaryQueries.

Variable self : Zup.Zup.
Variable w : world.

(** A query that compares the reply with a literal. *)
Lemma query_literal (command literal : string) :
  fst ((Zup._write_command self command ;;;
        r <- Zup._read_response self ;;
        ret (String.eqb r literal)) w)
  = Ok (String.eqb (next_reply w (port (Zup.serial_port self))) literal).
Proof.
  unfold bind at 1. rewrite _write_command_eq.
  unfold Zup._read_response, bind, serial_readline, ret, next_reply.
  cbn [inbox].
  now destruct (inbox w !! port (Zup.serial_port self)) as [[|l ls]|].
Qed.

Lemma eqb_length_ne (a b : string) :
  String.length a <> String.length b -> String.eqb a b = false.
Proof.
  intros H. apply String.eqb_neq. intros ->. now apply H.
Qed.

End BinaryQueries.

(** C10: the three service-request queries answer [True] exactly when the
    reply is, character for character, [:QV1;], [:QT1;], [:QF1;]; the other
    binary-state queries compare with the bare [OT1], [AS1], [FD1], [RM2];
    so on a bare three-character reply such as [QV1] the three
    service-request queries answer [False]. *)
Theorem service_request_queries_expect_framed_literal
    (self : Zup.Zup) (w : world) (reply : string) :
  next_reply w (port (Zup.serial_port self)) = reply ->
  (fst (Zup.service_request_over_voltage_on self w) = Ok (String.eqb reply ":QV1;")
   /\ fst (Zup.service_request_over_temperature_on self w) = Ok (String.eqb reply ":QT1;")
   /\ fst (Zup.service_request_foldback_on self w) = Ok (String.eqb reply ":QF1;"))
  /\ (fst (Zup.power_on self w) = Ok (String.eqb reply "OT1")
      /\ fst (Zup.autostart_on self w) = Ok (String.eqb reply "AS1")
      /\ fst (Zup.foldback_on self w) = Ok (String.eqb reply "FD1")
      /\ fst (Zup.remote_latched self w) = Ok (String.eqb reply "RM2"))
  /\ (String.length reply = 3 ->
      fst (Zup.service_request_over_voltage_on self w) = Ok false
      /\ fst (Zup.service_request_over_temperature_on self w) = Ok false
      /\ fst (Zup.service_request_foldback_on self w) = Ok false).
Proof.
  intros <-.
  unfold Zup.service_request_over_voltage_on, Zup.service_request_over_temperature_on,
    Zup.service_request_foldback_on, Zup.power_on, Zup.autostart_on, Zup.foldback_on,
    Zup.remote_latched.
  rewrite !query_literal.
  split; [now repeat split|]. split; [now repeat split|].
  intros Hlen. rewrite !eqb_length_ne by (rewrite Hlen; cbn; lia).
  now repeat split.
Qed.

Lemma service_request_queries_expect_framed_literal_witness :
  next_reply (fresh ["QV1" ++ CRLF]) (port (Zup.serial_port (zup10_20 1))) = "QV1"
  /\ fst (Zup.service_request_over_voltage_on (zup10_20 1) (fresh ["QV1" ++ CRLF])) = Ok false
  /\ fst (Zup.power_on (zup10_20 1) (fresh ["QV1" ++ CRLF])) = Ok false.
Proof.
  assert (H : next_reply (fresh ["QV1" ++ CRLF]) (port (Zup.serial_port (zup10_20 1))) = "QV1")
    by reflexivity.
  split; [exact H|].
  destruct (service_request_queries_expect_framed_literal
              (zup10_20 1) (fresh ["QV1" ++ CRLF]) "QV1" H) as ((Hv & _) & (Ho & _) & _).
  split; [exact Hv|exact Ho].
Defined.

(** ** Construction of a [Zup] object *)

Section Construction.

Implicit Types (w : world).

Lemma addressing_of_listening (p : string) (address : Z) (la : gmap string Z) :
  addressing_of p address (<[p := address]> la) = [].
Proof.
  unfold addressing_of. rewrite lookup_insert_eq. now rewrite decide_True.
Qed.

Lemma set_remote_mode_latched (self : Zup.Zup) :
  Zup.set_remote_mode self "Remote Latched" = Zup._write_command self ":RMT2;".
Proof. reflexivity. Qed.

Lemma silent_bind {A B} (m : M A) (k : A -> M B) :
  (forall w, snd (m w) = w) -> (forall a w, snd (k a w) = w) ->
  forall w, snd (bind m k w) = w.
Proof.
  intros Hm Hk w. unfold bind. specialize (Hm w).
  destruct (m w) as [[a|e] w1]; cbn [snd] in *; subst w1; [apply Hk|reflexivity].
Qed.

Lemma index_or_raise_silent (s sub : string) w : snd (Zup.index_or_raise s sub w) = w.
Proof. unfold Zup.index_or_raise. now destruct (Py.index s sub). Qed.

Lemma lookup_or_raise_silent (table : gmap string Zup.limits) (key : string) w :
  snd (Zup.lookup_or_raise table key w) = w.
Proof. unfold Zup.lookup_or_raise. now destruct (table !! key). Qed.

(** After the model has been read, the constructor only computes. *)
Lemma init_tail_silent (address : Z) (serial_port : Serial) (mdl : string) w :
  snd ((i <- Zup.index_or_raise mdl "(" ;;
        j <- Zup.index_or_raise mdl ")" ;;
        let mdl := Py.slice mdl (i + 1) j in
        k <- Zup.index_or_raise mdl "V" ;;
        let v := Py.slice mdl 0 k in
        i <- Zup.index_or_raise mdl "-" ;;
        j <- Zup.index_or_raise mdl "A" ;;
        let a := Py.slice mdl (i + 1) j in
        cur <- Zup.lookup_or_raise Zup.CURs ("ZUP" ++ v ++ "-" ++ a) ;;
        let mdl := "ZUP" ++ v ++ "-XY" in
        vol <- Zup.lookup_or_raise Zup.VOLs mdl ;;
        ovp <- Zup.lookup_or_raise Zup.OVPs mdl ;;
        uvp <- Zup.lookup_or_raise Zup.UVPs mdl ;;
        ret {| Zup.serial_port := serial_port; Zup.address := address;
               Zup.CUR := cur; Zup.VOL := vol; Zup.OVP := ovp; Zup.UVP := uvp |}) w) = w.
Proof.
  revert w.
  repeat (apply silent_bind;
          [intros; first [apply index_or_raise_silent|apply lookup_or_raise_silent]
          |intros ?]).
  reflexivity.
Qed.

Lemma read_response_eq (self : Zup.Zup) w :
  exists r w',
    Zup._read_response self w = (Ok r, w')
    /\ r = next_reply w (port (Zup.serial_port self))
    /\ trace w' = (trace w ++ [Rx (port (Zup.serial_port self))])%list
    /\ listening_addresses w' = listening_addresses w.
Proof.
  unfold Zup._read_response, bind, serial_readline, ret, next_reply.
  destruct (inbox w !! port (Zup.serial_port self)) as [[|line rest]|];
    eexists; eexists; (split; [reflexivity|]); now repeat split.
Qed.

Lemma get_model_eq (self : Zup.Zup) w :
  exists mdl w',
    Zup.get_model self w = (Ok mdl, w')
    /\ trace w' = (trace w ++ addressing self (listening_addresses w)
                     ++ [Tx (port (Zup.serial_port self)) ":MDL?;"; Sleep 20;
                         Rx (port (Zup.serial_port self))])%list.
Proof.
  unfold Zup.get_model.
  erewrite bind_ok by apply _write_command_eq.
  match goal with |- context [Zup._read_response self ?w1] =>
    destruct (read_response_eq self w1) as (r & w' & Hr & _ & Ht & _) end.
  exists r, w'. split; [exact Hr|].
  rewrite Ht. cbn [trace]. now rewrite <- !app_assoc.
Qed.

Lemma init_trace (address : Z) (serial_port : Serial) w :
  trace (snd (Zup.__init__ address serial_port w)) =
    (trace w ++
       (if Zup.ADDRESS_RANGE address
           && existsb (Z.eqb (baudrate serial_port)) Zup.BAUD_RATES
        then addressing_of (port serial_port) address (listening_addresses w)
               ++ [Tx (port serial_port) ":RMT2;"; Sleep 20;
                   Tx (port serial_port) ":MDL?;"; Sleep 20;
                   Rx (port serial_port)]
        else []))%list.
Proof.
  unfold Zup.__init__.
  destruct (Zup.ADDRESS_RANGE address); cbn [negb andb];
    [|now rewrite app_nil_r].
  destruct (existsb (Z.eqb (baudrate serial_port)) Zup.BAUD_RATES); cbn [negb];
    [|now rewrite app_nil_r].
  rewrite set_remote_mode_latched.
  erewrite bind_ok by apply _write_command_eq.
  match goal with |- context [bind (Zup.get_model ?s) _ ?w1] =>
    destruct (get_model_eq s w1) as (mdl & w2 & Hg & Ht) end.
  erewrite bind_ok by exact Hg.
  rewrite init_tail_silent, Ht.
  cbn [Zup.serial_port Zup.address listening_addresses trace].
  unfold addressing at 2. cbn [Zup.serial_port Zup.address].
  rewrite addressing_of_listening.
  unfold addressing. cbn [Zup.serial_port Zup.address app].
  now rewrite <- !app_assoc.
Qed.

End Construction.

Lemma events_of_app {A} (m : M A) (w : world) (evs : list event) :
  trace (snd (m w)) = (trace w ++ evs)%list -> events_of m w = evs.
Proof. intros H. unfold events_of. rewrite H. apply drop_app_length. Qed.

Lemma writes_app (t1 t2 : list event) :
  writes (t1 ++ t2) = (writes t1 ++ writes t2)%list.
Proof. apply flat_map_app. Qed.

(** C6, as the code has it: constructing a [Zup] object writes, after the
    addressing command when the supply is not yet the one listening,
    exactly [:RMT2;] (latching remote mode) and then the model query
    [:MDL?;], and nothing else; with an invalid address or baud rate it
    writes nothing. *)
Theorem init_issues_latch_then_model_query (address : Z) (serial_port : Serial) (w : world) :
  writes (events_of (Zup.__init__ address serial_port) w) =
    if Zup.ADDRESS_RANGE address && existsb (Z.eqb (baudrate serial_port)) Zup.BAUD_RATES
    then (writes (addressing_of (port serial_port) address (listening_addresses w))
            ++ [":RMT2;"; ":MDL?;"])%list
    else [].
Proof.
  rewrite (events_of_app _ _ _ (init_trace address serial_port w)).
  destruct (Zup.ADDRESS_RANGE address && existsb (Z.eqb (baudrate serial_port)) Zup.BAUD_RATES);
    [|reflexivity].
  now rewrite writes_app.
Qed.

(** C6, as stated, fails: on a valid address and port the constructor
    writes [:RMT2;], a command that changes the remote mode of the supply,
    before the model query. *)
Lemma init_not_only_model_query :
  ~ (forall (address : Z) (serial_port : Serial) (w : world),
        Forall (fun d => d = ":MDL?;" \/ is_ADR d = true)
               (writes (events_of (Zup.__init__ address serial_port) w))).
Proof.
  intros H.
  specialize (H 1%Z COM1 (fresh ["Nemic-Lambda ZUP(10V-20A)" ++ CRLF])).
  vm_compute in H.
  apply Forall_cons_1 in H as [_ H].
  apply Forall_cons_1 in H as [[H|H] _]; discriminate H.
Qed.

(** ** Reasoning about what is written *)

Section Only.

Context {A B : Type}.
Implicit Types (P : string -> Prop) (w : world).

Lemma only_ret P (a : A) : only P (ret a).
Proof. intros w. exists []. now rewrite app_nil_r. Qed.

Lemma only_raise P (e : exn) : only P (raise (A := A) e).
Proof. intros w. exists []. now rewrite app_nil_r. Qed.

Lemma only_bind P (m : M A) (k : A -> M B) :
  only P m -> (forall a, only P (k a)) -> only P (bind m k).
Proof.
  intros Hm Hk w. destruct (Hm w) as (e1 & Ht1 & Hf1). unfold bind.
  destruct (m w) as [[a|e] w1]; cbn [snd] in Ht1.
  - destruct (Hk a w1) as (e2 & Ht2 & Hf2).
    exists (e1 ++ e2)%list. split; [now rewrite Ht2, Ht1, app_assoc|].
    now apply Forall_app.
  - now exists e1.
Qed.

Lemma only_weaken P (Q : string -> Prop) (m : M A) :
  (forall d, P d -> Q d) -> only P m -> only Q m.
Proof.
  intros HPQ Hm w. destruct (Hm w) as (evs & Ht & Hf).
  exists evs. split; [exact Ht|].
  eapply Forall_impl; [exact Hf|]. intros [ms|p d|p|p]; cbn; auto.
Qed.

Lemma only_if_raised_of_only P (m : M A) : only P m -> only_if_raised P m.
Proof.
  intros Hm w. destruct (Hm w) as (evs & Ht & Hf). now exists evs.
Qed.

Lemma only_if_raised_total P (m : M A) :
  only anything m -> never_raises m -> only_if_raised P m.
Proof.
  intros Hm Hn w. destruct (Hm w) as (evs & Ht & _). destruct (Hn w) as (a & Ha).
  exists evs. split; [exact Ht|]. intros e He. congruence.
Qed.

Lemma only_if_raised_bind P (m : M A) (k : A -> M B) :
  only P m -> (forall a, only_if_raised P (k a)) -> only_if_raised P (bind m k).
Proof.
  intros Hm Hk w. destruct (Hm w) as (e1 & Ht1 & Hf1). unfold bind.
  destruct (m w) as [[a|e] w1]; cbn [snd fst] in *.
  - destruct (Hk a w1) as (e2 & Ht2 & Hf2).
    exists (e1 ++ e2)%list. split; [now rewrite Ht2, Ht1, app_assoc|].
    intros e He. apply Forall_app. split; [exact Hf1|now apply (Hf2 e)].
  - exists e1. now split.
Qed.

Lemma never_raises_bind (m : M A) (k : A -> M B) :
  never_raises m -> (forall a, never_raises (k a)) -> never_raises (bind m k).
Proof.
  intros Hm Hk w. destruct (Hm w) as (a & Ha). unfold bind.
  destruct (m w) as [[a'|e] w1]; cbn [fst] in Ha; [|discriminate].
  apply Hk.
Qed.

End Only.

Section OnlyPrimitives.

Implicit Types (P : string -> Prop) (w : world).

Lemma only_sleep P (ms : N) : only P (sleep ms).
Proof. intros w. exists [Sleep ms]. split; [reflexivity|]. now repeat constructor. Qed.

Lemma only_close P (p : string) : only P (serial_close p).
Proof. intros w. exists [ClosePort p]. split; [reflexivity|]. now repeat constructor. Qed.

Lemma only_write P (p d : string) : P d -> only P (serial_write p d).
Proof. intros H w. exists [Tx p d]. split; [reflexivity|]. now repeat constructor. Qed.

Lemma only_readline P (p : string) : only P (serial_readline p).
Proof.
  intros w. exists [Rx p]. split; [|now repeat constructor].
  unfold serial_readline. now destruct (inbox w !! p) as [[|l ls]|].
Qed.

Lemma only_for_each {X} P (xs : list X) (body : X -> M unit) :
  (forall x, only P (body x)) -> only P (for_each xs body).
Proof.
  intros Hb. induction xs as [|x xs IH]; cbn [for_each]; [apply only_ret|].
  apply only_bind; [apply Hb|intros _; exact IH].
Qed.

Lemma only_collect {X} P (xs : list X) (body : X -> M (list failure)) :
  (forall x, only P (body x)) -> only P (ABT_ZUp.collect xs body).
Proof.
  intros Hb. induction xs as [|x xs IH]; cbn [ABT_ZUp.collect]; [apply only_ret|].
  apply only_bind; [apply Hb|intros fs].
  apply only_bind; [exact IH|intros more; apply only_ret].
Qed.

Lemma never_raises_for_each {X} (xs : list X) (body : X -> M unit) :
  (forall x, never_raises (body x)) -> never_raises (for_each xs body).
Proof.
  intros Hb. induction xs as [|x xs IH]; cbn [for_each]; [now intros w; exists tt|].
  apply never_raises_bind; [apply Hb|intros _; exact IH].
Qed.

(** [Zup._write_command]. *)
Lemma only_write_command P (self : Zup.Zup) (command : string) :
  P (adr_command self) -> P command -> only P (Zup._write_command self command).
Proof.
  intros Ha Hc w. rewrite _write_command_eq. cbn [snd trace].
  eexists. split; [reflexivity|].
  apply Forall_app. split; [|now repeat constructor].
  unfold addressing, addressing_of. case_decide; now repeat constructor.
Qed.

Lemma never_raises_write_command (self : Zup.Zup) (command : string) :
  never_raises (Zup._write_command self command).
Proof. intros w. rewrite _write_command_eq. now exists tt. Qed.

Lemma only_read_response P (self : Zup.Zup) : only P (Zup._read_response self).
Proof.
  unfold Zup._read_response. apply only_bind; [apply only_readline|].
  intros rl. apply only_ret.
Qed.

Lemma only_to_float P (s : string) : only P (Zup.to_float s).
Proof. unfold Zup.to_float. destruct (Py.float s); [apply only_ret|apply only_raise]. Qed.

Lemma only_query_float P (self : Zup.Zup) (command prefix : string) :
  P (adr_command self) -> P command -> only P (Zup.query_float self command prefix).
Proof.
  intros Ha Hc. unfold Zup.query_float.
  apply only_bind; [now apply only_write_command|intros _].
  apply only_bind; [apply only_read_response|intros r]. apply only_to_float.
Qed.

(** [_ZUp_WriteCommand]. *)
Lemma old_write_eq (Command : string) (PortSerial : Serial) w :
  ABT_ZUp._ZUp_WriteCommand Command PortSerial w =
    (Ok tt,
     {| listening_addresses := listening_addresses w;
        inbox := inbox w;
        trace := (trace w ++
                    if is_ADR Command
                    then [Sleep 15; Tx (port PortSerial) Command; Sleep 35]
                    else [Tx (port PortSerial) Command; Sleep 20])%list |}).
Proof.
  unfold ABT_ZUp._ZUp_WriteCommand. rewrite slice_is_ADR.
  destruct (is_ADR Command); unfold bind, sleep, serial_write, emit;
    cbn [listening_addresses inbox trace]; now rewrite <- !app_assoc.
Qed.

Lemma only_old_write P (Command : string) (PortSerial : Serial) :
  P Command -> only P (ABT_ZUp._ZUp_WriteCommand Command PortSerial).
Proof.
  intros H w. rewrite old_write_eq. cbn [snd trace].
  eexists. split; [reflexivity|]. destruct (is_ADR Command); now repeat constructor.
Qed.

Lemma never_raises_old_write (Command : string) (PortSerial : Serial) :
  never_raises (ABT_ZUp._ZUp_WriteCommand Command PortSerial).
Proof. intros w. rewrite old_write_eq. now exists tt. Qed.

Lemma only_old_read P (PortSerial : Serial) : only P (ABT_ZUp._ZUp_ReadResponse PortSerial).
Proof. apply only_readline. Qed.

Lemma only_query P (Command : string) (PortSerial : Serial) :
  P Command -> only P (ABT_ZUp.query Command PortSerial).
Proof.
  intros H. unfold ABT_ZUp.query.
  apply only_bind; [now apply only_old_write|intros _; apply only_old_read].
Qed.

End OnlyPrimitives.

Ltac only_step :=
  first
    [ apply only_ret
    | apply only_raise
    | apply only_sleep
    | apply only_close
    | apply only_read_response
    | apply only_old_read
    | apply only_readline
    | apply only_to_float
    | apply only_query_float
    | apply only_write_command
    | apply only_query
    | apply only_old_write
    | apply only_write
    | apply only_for_each
    | apply only_collect
    | apply only_bind
    | match goal with
      | |- only _ (if ?b then _ else _) => destruct b
      | |- only _ (match ?x with _ => _ end) => destruct x
      | |- forall _, _ => intro
      end ].

Ltac solve_only := repeat only_step.

Lemma writes_only_writes (P : string -> Prop) (evs : list event) :
  Forall (writes_only P) evs -> Forall P (writes evs).
Proof.
  induction 1 as [|e evs He _ IH]; [constructor|].
  destruct e as [ms|p d|p|p]; cbn [writes flat_map app]; try exact IH.
  now constructor.
Qed.

Lemma only_events {A} (P : string -> Prop) (m : M A) (w : world) :
  only P m -> Forall P (writes (events_of m w)).
Proof.
  intros H. destruct (H w) as (evs & Ht & Hf).
  rewrite (events_of_app _ _ _ Ht). now apply writes_only_writes.
Qed.

Lemma only_if_raised_events {A} (P : string -> Prop) (m : M A) (w : world) (e : exn) :
  only_if_raised P m -> fst (m w) = Raise e -> Forall P (writes (events_of m w)).
Proof.
  intros H He. destruct (H w) as (evs & Ht & Hf).
  rewrite (events_of_app _ _ _ Ht). apply writes_only_writes. now apply (Hf e).
Qed.

(** ** [Zup.set_voltage] *)

Section SetVoltage.

Variable self : Zup.Zup.
Variable volts : Q.

Lemma set_voltage_only_if_raised :
  only_if_raised (voltage_query self) (Zup.set_voltage self volts).
Proof.
  unfold Zup.set_voltage.
  destruct (Py.between _ _ _); cbn [negb];
    [|apply only_if_raised_of_only, only_raise].
  apply only_if_raised_bind.
  { apply only_query_float; unfold voltage_query; auto. }
  intros up. apply only_if_raised_bind.
  { solve_only; unfold voltage_query; auto. }
  intros [|]; cbn [negb].
  - apply only_if_raised_total; [|apply never_raises_write_command].
    solve_only; exact I.
  - apply only_if_raised_of_only. solve_only; unfold voltage_query; auto.
Qed.

Lemma query_float_trace (command prefix : string) (w : world) :
  trace (snd (Zup.query_float self command prefix w)) =
    (trace w ++ addressing self (listening_addresses w)
       ++ [Tx (port (Zup.serial_port self)) command; Sleep 20;
           Rx (port (Zup.serial_port self))])%list.
Proof.
  unfold Zup.query_float.
  erewrite bind_ok by apply _write_command_eq.
  match goal with |- context [bind (Zup._read_response self) _ ?w1] =>
    destruct (read_response_eq self w1) as (r & w' & Hr & _ & Ht & _) end.
  erewrite bind_ok by exact Hr.
  unfold Zup.to_float.
  destruct (Py.float _); unfold ret, raise; cbn [snd]; rewrite Ht; cbn [trace];
    now rewrite <- !app_assoc.
Qed.

Lemma bind_extends {A B} (m : M A) (k : A -> M B) (w : world) :
  (forall a, only anything (k a)) ->
  exists evs, trace (snd (bind m k w)) = (trace (snd (m w)) ++ evs)%list.
Proof.
  intros Hk. unfold bind. destruct (m w) as [[a|e] w1]; cbn [snd].
  - destruct (Hk a w1) as (evs & Ht & _). now exists evs.
  - exists []. now rewrite app_nil_r.
Qed.

Lemma set_voltage_queries_first (w : world) :
  Py.between (Zup.min_ (Zup.VOL self)) volts (Zup.MAX (Zup.VOL self)) = true ->
  exists evs,
    events_of (Zup.set_voltage self volts) w =
      (addressing self (listening_addresses w)
         ++ [Tx (port (Zup.serial_port self)) ":UVP?;"; Sleep 20;
             Rx (port (Zup.serial_port self))] ++ evs)%list.
Proof.
  intros Hb. unfold Zup.set_voltage. rewrite Hb. cbn [negb].
  match goal with |- context [events_of (bind ?m ?k) w] =>
    destruct (bind_extends m k w) as (evs & Ht) end.
  { intros up. solve_only; exact I. }
  exists evs. apply events_of_app. rewrite Ht.
  unfold Zup.get_under_voltage_protection. rewrite query_float_trace.
  now rewrite <- !app_assoc.
Qed.

End SetVoltage.

(** C2, as the code has it: outside the absolute range of the model
    [set_voltage] raises at once and the world is untouched; whenever it
    raises, no [:VOL] command has been written, the only writes being the
    addressing command and the [:UVP?;] / [:OVP?;] queries; and once the
    absolute range is passed the window check itself writes [:UVP?;]. *)
Theorem set_voltage_failure_sends_only_queries (self : Zup.Zup) (volts : Q) (w : world) :
  (Py.between (Zup.min_ (Zup.VOL self)) volts (Zup.MAX (Zup.VOL self)) = false ->
   Zup.set_voltage self volts w
   = (Raise (ValueError "Invalid voltage, must *always* be in range."), w))
  /\ (forall e, fst (Zup.set_voltage self volts w) = Raise e ->
                Forall (voltage_query self)
                       (writes (events_of (Zup.set_voltage self volts) w)))
  /\ (Py.between (Zup.min_ (Zup.VOL self)) volts (Zup.MAX (Zup.VOL self)) = true ->
      In ":UVP?;" (writes (events_of (Zup.set_voltage self volts) w))).
Proof.
  split; [|split].
  - intros Hb. unfold Zup.set_voltage. now rewrite Hb.
  - intros e He. eapply only_if_raised_events; [apply set_voltage_only_if_raised|exact He].
  - intros Hb. destruct (set_voltage_queries_first self volts w Hb) as (evs & ->).
    rewrite !writes_app. apply in_or_app. right. now left.
Qed.

Lemma set_voltage_failure_sends_only_queries_witness :
  Py.between (Zup.min_ (Zup.VOL (zup10_20 1))) 11 (Zup.MAX (Zup.VOL (zup10_20 1))) = false
  /\ Zup.set_voltage (zup10_20 1) 11 (fresh [])
     = (Raise (ValueError "Invalid voltage, must *always* be in range."), fresh [])
  /\ fst (Zup.set_voltage (zup10_20 1) 5 (fresh ["UP06.00" ++ CRLF; "UP06.00" ++ CRLF; "OP13.0" ++ CRLF])) =
       Raise (ValueError "Invalid voltage, must *presently* be in range.")
  /\ Forall (voltage_query (zup10_20 1))
            (writes (events_of (Zup.set_voltage (zup10_20 1) 5) (fresh ["UP06.00" ++ CRLF; "UP06.00" ++ CRLF; "OP13.0" ++ CRLF])))
  /\ Py.between (Zup.min_ (Zup.VOL (zup10_20 1))) 5 (Zup.MAX (Zup.VOL (zup10_20 1))) = true
  /\ In ":UVP?;"
        (writes (events_of (Zup.set_voltage (zup10_20 1) 5) (fresh ["UP06.00" ++ CRLF; "UP06.00" ++ CRLF; "OP13.0" ++ CRLF]))).
Proof.
  assert (H11 : Py.between (Zup.min_ (Zup.VOL (zup10_20 1))) 11
                  (Zup.MAX (Zup.VOL (zup10_20 1))) = false) by (vm_compute; reflexivity).
  assert (H5 : Py.between (Zup.min_ (Zup.VOL (zup10_20 1))) 5
                 (Zup.MAX (Zup.VOL (zup10_20 1))) = true) by (vm_compute; reflexivity).
  assert (Hr : fst (Zup.set_voltage (zup10_20 1) 5 (fresh ["UP06.00" ++ CRLF; "UP06.00" ++ CRLF; "OP13.0" ++ CRLF])) =
                 Raise (ValueError "Invalid voltage, must *presently* be in range."))
    by (vm_compute; reflexivity).
  split; [exact H11|].
  split; [exact (proj1 (set_voltage_failure_sends_only_queries (zup10_20 1) 11 (fresh [])) H11)|].
  split; [exact Hr|].
  destruct (set_voltage_failure_sends_only_queries (zup10_20 1) 5 (fresh ["UP06.00" ++ CRLF; "UP06.00" ++ CRLF; "OP13.0" ++ CRLF]))
    as (_ & Hq & Hu).
  split; [exact (Hq _ Hr)|]. split; [exact H5|exact (Hu H5)].
Defined.

(** C2, as stated, fails: a voltage inside the absolute range but outside
    the window makes [set_voltage] raise after it has written its
    queries. *)
Lemma set_voltage_failure_not_silent :
  ~ (forall (self : Zup.Zup) (volts : Q) (w : world) (e : exn),
        fst (Zup.set_voltage self volts w) = Raise e ->
        writes (events_of (Zup.set_voltage self volts) w) = []).
Proof.
  intros H.
  specialize (H (zup10_20 1) 5%Q (fresh ["UP06.00" ++ CRLF; "UP06.00" ++ CRLF; "OP13.0" ++ CRLF])
                (ValueError "Invalid voltage, must *presently* be in range.")).
  vm_compute in H. specialize (H eq_refl). discriminate H.
Qed.

(** C5 at the failing input.  A ZUP10-20 (over-voltage format [2.1],
    under-voltage format [1.2]) programmed to 5 V is asked for an
    over-voltage limit of 12 V: the command sent is [:OVP12.00;], the text
    of the under-voltage format, where the over-voltage format gives
    [12.0]. *)
Lemma set_over_voltage_protection_formats_with_uvp_spec :
  fst (Zup.__init__ 1 COM1 (fresh [model_reply "10V-20A"])) = Ok (zup10_20 1)
  /\ Zup.set_over_voltage_protection (zup10_20 1) 12 (fresh ["SV05.000" ++ CRLF])
     = (Ok tt,
        {| listening_addresses := {[ "COM1" := 1%Z ]};
           inbox := {[ "COM1" := [] ]};
           trace := [Sleep 15; Tx "COM1" ":ADR01;"; Sleep 35;
                     Tx "COM1" ":VOL!;"; Sleep 20; Rx "COM1";
                     Tx "COM1" ":OVP12.00;"; Sleep 20] |})
  /\ Py.format_f (Zup.Format (Zup.OVP (zup10_20 1))) 12 = "12.0"
  /\ Py.format_f (Zup.Format (Zup.UVP (zup10_20 1))) 12 = "12.00".
Proof. repeat split; vm_compute; reflexivity. Qed.

(** C3 at the failing inputs.  A 36V-6A supply is asked for 10 A: the
    validation of [ZUps_ON] accepts it, although 10 exceeds 6 * 1.05; and a
    supply asked for 1 A that delivers 5 A passes the verification,
    although 5 exceeds 1 * 1.05.  The bound the code computes is
    [rated * (1 + 5)]. *)
Lemma amperage_tolerance_is_sixfold :
  fst (ABT_ZUp._ZUps_VerifySetVAs
         [{| ABT_ZUp.Address := 1; ABT_ZUp.Voltage := 5.0;
             ABT_ZUp.Amperage := 10.0; ABT_ZUp.Foldback := "FLD_off" |}]
         COM1 (fresh [model_reply "36V-6A"])) = Ok tt
  /\ Qle_bool 10.0 (6 * 1.05) = false
  /\ fst (ABT_ZUp._ZUps_VerifyActualVAs
            [{| ABT_ZUp.Address := 1; ABT_ZUp.Voltage := 5.0;
                ABT_ZUp.Amperage := 1.0; ABT_ZUp.Foldback := "FLD_off" |}]
            COM1 (fresh ["AV05.00" ++ CRLF; "AA5.000" ++ CRLF])) = Ok tt
  /\ Qle_bool 5.0 (1.0 * 1.05) = false
  /\ (6 * (1 + ABT_ZUp._ZUp_CUR_TOLERANCE) == 36)%Q.
Proof. repeat split; vm_compute; reflexivity. Qed.

(** ** Power-off: [ZUps_off] *)

Section PowerOff.

Implicit Types (w : world) (PortSerial : Serial).

Lemma on_success_bind {A B} (P : string -> Prop) (tail : list event)
    (m : M A) (k : A -> M B) :
  only P m -> (forall a, on_success P tail (k a)) -> on_success P tail (bind m k).
Proof.
  intros Hm Hk w b. destruct (Hm w) as (e1 & Ht1 & Hf1). unfold bind.
  destruct (m w) as [[a|e] w1]; cbn [snd fst] in *; [|discriminate].
  intros Hb. destruct (Hk a w1 b Hb) as (pre & Ht & Hf).
  exists (e1 ++ pre)%list. split; [now rewrite Ht, Ht1, <- !app_assoc|].
  now apply Forall_app.
Qed.

Lemma adr_is_ADR (Address : Z) :
  is_ADR (":ADR" ++ ABT_ZUp._ZUp_FormatAddress Address ++ ";") = true.
Proof. apply prefix_append. Qed.

Lemma cleanup_eq (Addresses : list Z) PortSerial w :
  exists w',
    ABT_ZUp._ZUps_CleanUp Addresses PortSerial w = (Ok tt, w')
    /\ trace w' = (trace w ++ flat_map (cleanup_events (port PortSerial)) Addresses)%list.
Proof.
  revert w. induction Addresses as [|a rest IH]; intros w.
  - exists w. split; [reflexivity|]. now rewrite app_nil_r.
  - unfold ABT_ZUp._ZUps_CleanUp. cbn [for_each].
    unfold bind at 1. unfold bind at 1. rewrite old_write_eq, adr_is_ADR.
    unfold bind at 1. rewrite old_write_eq.
    unfold bind at 1. rewrite old_write_eq.
    unfold bind at 1. rewrite old_write_eq.
    rewrite old_write_eq.
    match goal with |- context [for_each rest ?f ?w1] =>
      destruct (IH w1) as (w' & Hrun & Ht) end.
    exists w'. unfold ABT_ZUp._ZUps_CleanUp in Hrun. split; [exact Hrun|].
    rewrite Ht. cbn [trace flat_map is_ADR String.prefix].
    unfold cleanup_events. cbn [app]. now rewrite <- !app_assoc.
Qed.

Lemma cleanup_then_close (Addresses : list Z) PortSerial w :
  (ABT_ZUp._ZUps_CleanUp Addresses PortSerial ;;; serial_close (port PortSerial)) w
  = (Ok tt,
     {| listening_addresses := listening_addresses
                                 (snd (ABT_ZUp._ZUps_CleanUp Addresses PortSerial w));
        inbox := inbox (snd (ABT_ZUp._ZUps_CleanUp Addresses PortSerial w));
        trace := (trace w ++ flat_map (cleanup_events (port PortSerial)) Addresses
                    ++ [ClosePort (port PortSerial)])%list |}).
Proof.
  destruct (cleanup_eq Addresses PortSerial w) as (w' & Hrun & Ht).
  unfold bind. rewrite Hrun. unfold serial_close, emit. cbn [snd].
  now rewrite Ht, <- app_assoc.
Qed.

Lemma only_read_status (P : string -> Prop) (Address : Z) PortSerial :
  P (":ADR" ++ ABT_ZUp._ZUp_FormatAddress Address ++ ";") ->
  (forall q, In q [":VOL?;"; ":CUR?;"; ":STA?;"; ":ALM?;"; ":STP?;"; ":RMT?;"; ":MDL?;";
                   ":REV?;"; ":VOL!;"; ":CUR!;"; ":FLD?;"; ":OVP?;"; ":UVP?;"; ":AST?;"]
             -> P q) ->
  only P (ABT_ZUp._ZUp_ReadStatus Address PortSerial).
Proof.
  intros Ha Hq. unfold ABT_ZUp._ZUp_ReadStatus.
  solve_only; first [exact Ha|apply Hq; cbn; tauto].
Qed.

Lemma only_verify_addresses (P : string -> Prop) (Addresses : list Z) :
  only P (ABT_ZUp._ZUps_VerifyAddresses Addresses).
Proof.
  unfold ABT_ZUp._ZUps_VerifyAddresses, ABT_ZUp.raise_if_any. solve_only.
Qed.

Lemma only_verify_baud (P : string -> Prop) (Baud : Z) :
  only P (ABT_ZUp._ZUps_VerifyBaud Baud).
Proof. unfold ABT_ZUp._ZUps_VerifyBaud. solve_only. Qed.

Lemma not_cleanup_adr (Address : Z) :
  not_cleanup (":ADR" ++ ABT_ZUp._ZUp_FormatAddress Address ++ ";").
Proof. reflexivity. Qed.

Lemma only_set_power (Addresses : list Z) PortSerial (DesiredState : string) :
  only not_cleanup (ABT_ZUp._ZUps_SetPower Addresses PortSerial DesiredState).
Proof.
  unfold ABT_ZUp._ZUps_SetPower. solve_only;
    first [apply not_cleanup_adr|reflexivity].
Qed.

Lemma only_verify_power (Addresses : list Z) PortSerial (ExpectedState : string) :
  only not_cleanup (ABT_ZUp._ZUps_VerifyPower Addresses PortSerial ExpectedState).
Proof.
  unfold ABT_ZUp._ZUps_VerifyPower.
  apply only_bind.
  - apply only_collect. intros Address.
    apply only_bind; [apply only_old_write, not_cleanup_adr|intros _].
    apply only_bind; [now apply only_old_write|intros _].
    apply only_bind; [apply only_old_read|intros OSR].
    assert (Hs : only not_cleanup (ABT_ZUp._ZUp_ReadStatus Address PortSerial)).
    { apply only_read_status; [apply not_cleanup_adr|].
      intros q Hq. cbn in Hq. now intuition subst. }
    destruct (_ && _); [apply only_bind; [exact Hs|intros; apply only_ret]|].
    destruct (_ && _); [apply only_bind; [exact Hs|intros; apply only_ret]|].
    apply only_ret.
  - intros [|f fs]; solve_only.
Qed.

Lemma power_off_only_if_raised (Addresses : list Z) (SerialPort : string) (Baud : Z) :
  only_if_raised not_cleanup (ABT_ZUp.ZUps_off Addresses SerialPort Baud).
Proof.
  unfold ABT_ZUp.ZUps_off.
  apply only_if_raised_bind; [apply only_verify_addresses|intros _].
  apply only_if_raised_bind; [apply only_verify_baud|intros _].
  apply only_if_raised_bind; [apply only_ret|intros PortSerial].
  apply only_if_raised_bind; [apply only_set_power|intros _].
  apply only_if_raised_bind; [apply only_verify_power|intros _].
  intros w. rewrite cleanup_then_close. cbn [snd fst trace].
  eexists. split; [reflexivity|]. discriminate.
Qed.

Lemma on_success_ret_bind {A B} (P : string -> Prop) (tail : list event)
    (x : A) (k : A -> M B) :
  on_success P tail (k x) -> on_success P tail (bind (ret x) k).
Proof. intros H w a. exact (H w a). Qed.

Lemma power_off_on_success (Addresses : list Z) (SerialPort : string) (Baud : Z) :
  on_success not_cleanup
    (flat_map (cleanup_events SerialPort) Addresses ++ [ClosePort SerialPort])
    (ABT_ZUp.ZUps_off Addresses SerialPort Baud).
Proof.
  unfold ABT_ZUp.ZUps_off.
  apply on_success_bind; [apply only_verify_addresses|intros _].
  apply on_success_bind; [apply only_verify_baud|intros _].
  unfold ABT_ZUp._ZUps_GetPortSerial. apply on_success_ret_bind.
  apply on_success_bind; [apply only_set_power|intros _].
  apply on_success_bind; [apply only_verify_power|intros _].
  intros w a _. rewrite cleanup_then_close. cbn [snd trace port].
  exists []. split; [reflexivity|constructor].
Qed.

End PowerOff.

(** C7, as the code has it: clean-up is all or nothing.  When [ZUps_off]
    raises, and so whenever the verification finds a supply still on, no
    clean-up command ([:RMT1;], [:DCL;], [:FLD2;], [:AST0;]) has been
    written for any supply; when it returns, it has ended with the
    clean-up of every address, in order, and the closing of the port. *)
Theorem power_off_cleanup_all_or_none
    (Addresses : list Z) (SerialPort : string) (Baud : Z) (w : world) :
  (forall e, fst (ABT_ZUp.ZUps_off Addresses SerialPort Baud w) = Raise e ->
             Forall not_cleanup
                    (writes (events_of (ABT_ZUp.ZUps_off Addresses SerialPort Baud) w)))
  /\ (fst (ABT_ZUp.ZUps_off Addresses SerialPort Baud w) = Ok tt ->
      exists pre,
        events_of (ABT_ZUp.ZUps_off Addresses SerialPort Baud) w
        = (pre ++ flat_map (cleanup_events SerialPort) Addresses
               ++ [ClosePort SerialPort])%list
        /\ Forall not_cleanup (writes pre)).
Proof.
  split.
  - intros e He. eapply only_if_raised_events; [apply power_off_only_if_raised|exact He].
  - intros Hok.
    destruct (power_off_on_success Addresses SerialPort Baud w tt Hok) as (pre & Ht & Hf).
    exists pre. split; [|now apply writes_only_writes].
    apply events_of_app. exact Ht.
Qed.

Lemma power_off_cleanup_all_or_none_witness :
  fst (ABT_ZUp.ZUps_off [1; 2]%Z "COM1" 9600
         (fresh ["OS00000000" ++ CRLF; "OS00010000" ++ CRLF]))
  = Raise (RuntimeErrorReport [FailedToTurnOff 2 ""])
  /\ Forall not_cleanup
        (writes (events_of (ABT_ZUp.ZUps_off [1; 2]%Z "COM1" 9600)
                           (fresh ["OS00000000" ++ CRLF; "OS00010000" ++ CRLF])))
  /\ fst (ABT_ZUp.ZUps_off [1; 2]%Z "COM1" 9600
            (fresh ["OS00000000" ++ CRLF; "OS00000000" ++ CRLF])) = Ok tt
  /\ exists pre,
      events_of (ABT_ZUp.ZUps_off [1; 2]%Z "COM1" 9600)
                (fresh ["OS00000000" ++ CRLF; "OS00000000" ++ CRLF])
      = (pre ++ flat_map (cleanup_events "COM1") [1; 2]%Z ++ [ClosePort "COM1"])%list
      /\ Forall not_cleanup (writes pre).
Proof.
  assert (Hr : fst (ABT_ZUp.ZUps_off [1; 2]%Z "COM1" 9600
                      (fresh ["OS00000000" ++ CRLF; "OS00010000" ++ CRLF]))
               = Raise (RuntimeErrorReport [FailedToTurnOff 2 ""]))
    by (vm_compute; reflexivity).
  assert (Hk : fst (ABT_ZUp.ZUps_off [1; 2]%Z "COM1" 9600
                      (fresh ["OS00000000" ++ CRLF; "OS00000000" ++ CRLF])) = Ok tt)
    by (vm_compute; reflexivity).
  split; [exact Hr|].
  split; [exact (proj1 (power_off_cleanup_all_or_none _ _ _ _) _ Hr)|].
  split; [exact Hk|].
  exact (proj2 (power_off_cleanup_all_or_none _ _ _ _) Hk).
Defined.

(** C7, as stated, fails: of two supplies the first is off and the second
    still on; [ZUps_off] raises, and the supply that passed the
    verification has received no clean-up command. *)
Lemma power_off_failure_skips_cleanup :
  fst (ABT_ZUp.ZUps_off [1; 2]%Z "COM1" 9600
         (fresh ["OS00000000" ++ CRLF; "OS00010000" ++ CRLF]))
  = Raise (RuntimeErrorReport [FailedToTurnOff 2 ""])
  /\ existsb (fun d => existsb (String.eqb d) cleanup_commands)
             (writes (events_of (ABT_ZUp.ZUps_off [1; 2]%Z "COM1" 9600)
                                (fresh ["OS00000000" ++ CRLF; "OS00010000" ++ CRLF])))
     = false
  /\ ~ (exists pre post,
          events_of (ABT_ZUp.ZUps_off [1; 2]%Z "COM1" 9600)
                    (fresh ["OS00000000" ++ CRLF; "OS00010000" ++ CRLF])
          = (pre ++ cleanup_events "COM1" 1 ++ post)%list).
Proof.
  split; [vm_compute; reflexivity|]. split; [vm_compute; reflexivity|].
  intros (pre & post & H).
  assert (Hin : In (Tx "COM1" ":RMT1;")
                   (events_of (ABT_ZUp.ZUps_off [1; 2]%Z "COM1" 9600)
                              (fresh ["OS00000000" ++ CRLF; "OS00010000" ++ CRLF]))).
  { rewrite H. apply in_or_app. right. apply in_or_app. left. cbn. tauto. }
  clear H. vm_compute in Hin.
  repeat (destruct Hin as [Hin|Hin]; [discriminate Hin|]). exact Hin.
Qed.
